(** * Oculus operational scripts: a shallow embedding

    This development models the infrastructure scripts of the Oculus
    repository ([cdk/scripts/deploy-infra.ts], [cdk/scripts/delete-infra.ts]
    with the resource collector [checkawsresources.ts] and the environment
    file generators) and the survey submit handler of [lambdas/api.ts].

    Side effects are modelled explicitly: the scripts run in a small
    state-and-exception monad whose state is the trace of externally visible
    actions (shell commands, sleeps, prompts), and whose outcome is a normal
    result, an early [return] from [main], a thrown error or a promise that
    never settles.  Strings are [String.string]; JavaScript's
    [toUpperCase], [toLowerCase] and [trim] are modelled on ASCII. *)

From Stdlib Require Import String Ascii List Bool Arith ZArith Lia.
Import ListNotations.
Open Scope string_scope.
Open Scope nat_scope.

(** ** JavaScript string helpers (ASCII) *)

Definition ascii_upper (c : ascii) : ascii :=
  let n := nat_of_ascii c in
  if ((97 <=? n) && (n <=? 122))%nat then ascii_of_nat (n - 32)%nat else c.

Definition ascii_lower (c : ascii) : ascii :=
  let n := nat_of_ascii c in
  if ((65 <=? n) && (n <=? 90))%nat then ascii_of_nat (n + 32)%nat else c.

Fixpoint str_map (f : ascii -> ascii) (s : string) : string :=
  match s with
  | EmptyString => EmptyString
  | String c r => String (f c) (str_map f r)
  end.

(** [String.prototype.toUpperCase] / [toLowerCase]. *)
Definition js_toUpperCase (s : string) : string := str_map ascii_upper s.
Definition js_toLowerCase (s : string) : string := str_map ascii_lower s.

(** White space removed by [String.prototype.trim]: tab, line feed,
    vertical tab, form feed, carriage return and space. *)
Definition js_is_space (c : ascii) : bool :=
  let n := nat_of_ascii c in ((n =? 32) || ((9 <=? n) && (n <=? 13)))%nat.

Fixpoint trim_start (s : string) : string :=
  match s with
  | EmptyString => EmptyString
  | String c r => if js_is_space c then trim_start r else s
  end.

Fixpoint str_rev_acc (s acc : string) : string :=
  match s with
  | EmptyString => acc
  | String c r => str_rev_acc r (String c acc)
  end.

Definition str_rev (s : string) : string := str_rev_acc s EmptyString.

(** [String.prototype.trim]. *)
Definition js_trim (s : string) : string :=
  str_rev (trim_start (str_rev (trim_start s))).

Fixpoint str_prefixb (p s : string) : bool :=
  match p, s with
  | EmptyString, _ => true
  | String c p', String d s' => Ascii.eqb c d && str_prefixb p' s'
  | String _ _, EmptyString => false
  end.

(** [String.prototype.includes]. *)
Fixpoint js_includes (s needle : string) : bool :=
  str_prefixb needle s ||
  match s with
  | EmptyString => false
  | String _ r => js_includes r needle
  end.

(** ** The script monad

    The state is the trace of actions performed so far (oldest first).
    [Returned] is an early [return] out of [main]; [Thrown] an exception;
    [Blocked] an [await] on a promise that never settles. *)

Inductive event : Type :=
  | EvCheckResources                 (* npx ts-node checkawsresources.ts *)
  | EvIpRequest                      (* GET https://checkip.amazonaws.com/ *)
  | EvWriteInventoryIP (ip : string) (* aws-inventory.json rewritten *)
  | EvPromptConfirm                  (* readline: confirmation gate *)
  | EvPromptVpc                      (* readline: VPC strategy *)
  | EvPromptVpcId                    (* readline: existing VPC id *)
  | EvContext (cmd : string)         (* npx cdk context ... *)
  | EvInstall (cmd : string)         (* npm ci / npm i *)
  | EvSleep (ms : Z)                 (* await sleep(ms) *)
  | EvSynth (attempt : nat)          (* npx cdk synth *)
  | EvDeploy                         (* npx cdk deploy --require-approval never *)
  | EvCdkList                        (* npx cdk list *)
  | EvDestroy.                       (* npx cdk destroy --force *)

(** Actions that change the cloud account. *)
Definition cloud_mutating (e : event) : bool :=
  match e with
  | EvDeploy | EvDestroy => true
  | _ => false
  end.

Inductive outcome (A : Type) : Type :=
  | Normal (a : A)
  | Returned
  | Thrown (msg : string)
  | Blocked.
Arguments Normal {A} a.
Arguments Returned {A}.
Arguments Thrown {A} msg.
Arguments Blocked {A}.

Definition M (A : Type) : Type := list event -> outcome A * list event.

Definition ret {A} (a : A) : M A := fun tr => (Normal a, tr).

Definition bind {A B} (m : M A) (k : A -> M B) : M B :=
  fun tr =>
    match m tr with
    | (Normal a, tr') => k a tr'
    | (Returned, tr') => (Returned, tr')
    | (Thrown e, tr') => (Thrown e, tr')
    | (Blocked, tr') => (Blocked, tr')
    end.

Notation "x <- m ;; k" := (bind m (fun x => k))
  (at level 61, m at next level, right associativity).
Notation "m ;;; k" := (bind m (fun _ => k))
  (at level 61, right associativity).

Definition emit (e : event) : M unit := fun tr => (Normal tt, app tr [e]).
Definition throw {A} (msg : string) : M A := fun tr => (Thrown msg, tr).
Definition early_return {A} : M A := fun tr => (Returned, tr).
Definition block {A} : M A := fun tr => (Blocked, tr).

(** [try { body } catch { handler }] *)
Definition try_catch {A} (body : M A) (handler : string -> M A) : M A :=
  fun tr =>
    match body tr with
    | (Thrown e, tr') => handler e tr'
    | r => r
    end.

(** [sh(cmd)]: [execSync] with inherited stdio; throws when the command
    exits with a non-zero status. *)
Definition sh (e : event) (ok : bool) : M unit :=
  emit e ;;; if ok then ret tt else throw "Command failed".

(** [function ensureFile(p, message)] *)
Definition ensureFile (exists_ : bool) (message : string) : M unit :=
  if exists_ then ret tt else throw message.

(** Running [main().catch(err => { ...; process.exit(1); })]. *)
Definition run (m : M unit) : outcome unit * list event := m [].

(** The process exit status; [None] when the process never exits. *)
Definition exit_code (o : outcome unit) : option nat :=
  match o with
  | Normal _ | Returned => Some 0
  | Thrown _ => Some 1
  | Blocked => None
  end.

(** npm dependency installation shared by both scripts:
    [try { npm ci | npm i } catch { npm i }]. *)
Definition installDeps (has_lock ok retry_ok : bool) : M unit :=
  try_catch
    (sh (EvInstall (if has_lock then "npm ci" else "npm i")) ok)
    (fun _ => sh (EvInstall "npm i") retry_ok).

(** ** Resource tags: [{ Key?: string; Value?: string }] *)

Record Tag : Type := mkTag { Key : option string; Value : option string }.

(** String conversion of a possibly [undefined] value, as done by
    [RegExp.prototype.test]. *)
Definition js_string_of (v : option string) : string :=
  match v with Some s => s | None => "undefined" end.

(** ** deploy-infra.ts *)

(** The parts of a subnet record of [aws-inventory.json] that the gap
    analysis reads. *)
Record DSubnet : Type := mkDSubnet {
  MapPublicIpOnLaunch : option bool;
  SubnetTags : option (list Tag)
}.

(** [interface ResourceInventory] as loaded from [aws-inventory.json].
    The analysis reads only the lengths of most lists, so their elements are
    kept as resource identifiers; the fields the code guards with [&&]
    ([internetGateways], [securityGroups], [rdsProxies]) may be absent. *)
Record Inventory : Type := mkInventory {
  vpcs : list string;
  subnets : list DSubnet;
  routeTables : list string;
  networkAcls : list string;
  natGateways : list string;
  internetGateways : option (list string);
  securityGroups : option (list string);
  ec2Instances : list string;
  rdsInstances : list string;
  rdsProxies : option (list string);
  s3Buckets : list string
}.

(** [/public/i.test(v)] *)
Definition re_public (v : option string) : bool :=
  js_includes (js_toLowerCase (js_string_of v)) "public".

(** [/private|isolated/i.test(v)] *)
Definition re_private_isolated (v : option string) : bool :=
  let s := js_toLowerCase (js_string_of v) in
  js_includes s "private" || js_includes s "isolated".

Definition key_is_name (t : Tag) : bool :=
  match Key t with Some k => String.eqb k "Name" | None => false end.

Definition is_public_subnet (s : DSubnet) : bool :=
  match MapPublicIpOnLaunch s with
  | Some true => true
  | _ =>
      match SubnetTags s with
      | Some ts => existsb (fun t => key_is_name t && re_public (Value t)) ts
      | None => false
      end
  end.

Definition is_private_subnet (s : DSubnet) : bool :=
  negb (match MapPublicIpOnLaunch s with Some true => true | _ => false end) &&
  match SubnetTags s with
  | Some ts => existsb (fun t => key_is_name t && re_private_isolated (Value t)) ts
  | None => false
  end.

Definition nonempty {A} (l : list A) : bool := 0 <? length l.

(** [x && x.length > 0] for an optional list. *)
Definition opt_nonempty {A} (l : option (list A)) : bool :=
  match l with Some l => nonempty l | None => false end.

(** [const existingResources = { ... }], in its key order. *)
Definition existingResources (inv : Inventory) : list (string * bool) :=
  [ ("vpc", nonempty (vpcs inv));
    ("subnets", 3 <=? length (subnets inv));
    ("publicSubnet", nonempty (filter is_public_subnet (subnets inv)));
    ("privateSubnet", nonempty (filter is_private_subnet (subnets inv)));
    ("internetGateway", opt_nonempty (internetGateways inv));
    ("securityGroups", opt_nonempty (securityGroups inv));
    ("rds", nonempty (rdsInstances inv));
    ("rdsProxy", opt_nonempty (rdsProxies inv));
    ("ec2", nonempty (ec2Instances inv));
    ("s3", nonempty (s3Buckets inv));
    ("routeTables", nonempty (routeTables inv));
    ("networkAcls", nonempty (networkAcls inv)) ].

(** [Object.values(existingResources).every(exists => exists)] *)
Definition allResourcesExist (er : list (string * bool)) : bool :=
  forallb snd er.

(** [Object.entries(existingResources).filter(([_, e]) => !e).map(...)] *)
Definition missingResources (er : list (string * bool)) : list string :=
  map fst (filter (fun p => negb (snd p)) er).

(** *** getCurrentPublicIP

    The HTTPS request is observed as a stream of events.  [IpIdle ms] is a
    period of [ms] milliseconds without socket activity; consecutive
    periods add up, and data resets the count.  [req.setTimeout] fires once
    the socket has been idle for [ip_timeout_ms], destroying the request
    and rejecting the promise. *)

Definition ip_timeout_ms : Z := 10000.

Inductive ip_event : Type :=
  | IpData (chunk : string)
  | IpIdle (ms : Z)
  | IpEnd (statusCode : Z)
  | IpNetError (msg : string).

Inductive ip_error : Type :=
  | IpErrTimeout                (* new Error('Request timeout') *)
  | IpErrHttp (statusCode : Z)  (* new Error(`HTTP ${res.statusCode}`) *)
  | IpErrNet (msg : string).    (* req.on('error') *)

Inductive ip_result : Type :=
  | IpResolved (ip : string)
  | IpRejected (e : ip_error)
  | IpPending.

(** [data] is the body received so far, [idle] the time since the last
    socket activity. *)
Fixpoint ip_run (data : string) (idle : Z) (evs : list ip_event) : ip_result :=
  match evs with
  | [] => IpPending
  | IpData c :: r => ip_run (data ++ c) 0 r
  | IpIdle ms :: r =>
      if (ip_timeout_ms <=? idle + ms)%Z then IpRejected IpErrTimeout
      else ip_run data (idle + ms) r
  | IpEnd st :: _ =>
      if (st =? 200)%Z then IpResolved (js_trim data) else IpRejected (IpErrHttp st)
  | IpNetError m :: _ => IpRejected (IpErrNet m)
  end.

Definition getCurrentPublicIP (evs : list ip_event) : ip_result := ip_run "" 0 evs.

Definition ip_failed (r : ip_result) : Prop :=
  match r with IpRejected _ => True | _ => False end.

(** *** The run's environment: what the operator types and what each
    command and request does. *)
Record DeployEnv : Type := mkDeployEnv {
  de_package_json : bool;          (* cdk/package.json exists *)
  de_check_script : bool;          (* checkawsresources.ts exists *)
  de_check_ok : bool;              (* npx ts-node checkawsresources.ts succeeds *)
  de_inventory : option Inventory; (* loadInventory() *)
  de_ip : list ip_event;           (* the checkip.amazonaws.com request *)
  de_inventory_file : bool;        (* aws-inventory.json exists at IP update *)
  de_confirm : string;             (* answer at the confirmation gate *)
  de_vpc_choice : string;          (* answer at the VPC strategy prompt *)
  de_vpc_id : string;              (* answer at the VPC id prompt *)
  de_context_ok : string -> bool;  (* npx cdk context ... *)
  de_has_lock : bool;              (* package-lock.json exists *)
  de_install_ok : bool;
  de_install_retry_ok : bool;
  de_synth_ok : nat -> bool;       (* outcome of the i-th cdk synth attempt *)
  de_deploy_ok : bool;
  de_verify_ok : bool
}.

(** [async function updateInventoryWithPublicIP()] *)
Definition updateInventoryWithPublicIP (env : DeployEnv) : M string :=
  emit EvIpRequest ;;;
  match getCurrentPublicIP (de_ip env) with
  | IpResolved ip =>
      (if de_inventory_file env then emit (EvWriteInventoryIP ip) else ret tt) ;;;
      ret ip
  | IpRejected _ => throw "Cannot proceed without public IP address"
  | IpPending => block
  end.

(** The confirmation gate: [answer.trim().toUpperCase() !== 'YES']. *)
Definition confirm_token : string := "YES".

Definition gate_accepts (answer : string) : bool :=
  String.eqb (js_toUpperCase (js_trim answer)) confirm_token.

Definition confirmationGate (env : DeployEnv) : M unit :=
  emit EvPromptConfirm ;;;
  if gate_accepts (de_confirm env) then ret tt else early_return.

Inductive vpc_strategy : Type := VpcNew | VpcExisting.

(** [async function askVPCPreference()], after the prompt has been
    answered. *)
Definition askVPCPreference (answer : string) : vpc_strategy :=
  let choice := js_toUpperCase (js_trim answer) in
  if String.eqb choice "NEW" then VpcNew
  else if String.eqb choice "EXISTING" then VpcExisting
  else VpcNew.

Definition ctx (env : DeployEnv) (cmd : string) : M unit :=
  sh (EvContext cmd) (de_context_ok env cmd).

(** The VPC strategy branch of [main]; both arms swallow errors. *)
Definition vpcStrategyStep (env : DeployEnv) : M unit :=
  emit EvPromptVpc ;;;
  match askVPCPreference (de_vpc_choice env) with
  | VpcExisting =>
      emit EvPromptVpcId ;;;
      let vpcId := js_trim (de_vpc_id env) in
      try_catch
        (ctx env "npx cdk context --set vpcStrategy=existing" ;;;
         ctx env ("npx cdk context --set existingVpcId=" ++ vpcId))
        (fun _ => ret tt)
  | VpcNew =>
      try_catch
        (ctx env "npx cdk context --remove vpcStrategy" ;;;
         ctx env "npx cdk context --remove existingVpcId")
        (fun _ => ret tt)
  end.

Definition synthAttempts : nat := 3.
Definition synthRetryDelayMs : Z := 5000.

(** [for (let i = 1; i <= synthAttempts; i++) { try { sh("npx cdk synth");
    synthOk = true; break; } catch (err) { if (i === synthAttempts) throw
    err; await sleep(5000); } }], with [fuel] iterations left. *)
Fixpoint synthLoop (ok : nat -> bool) (i fuel : nat) : M bool :=
  match fuel with
  | O => ret false
  | S fuel' =>
      emit (EvSynth i) ;;;
      if ok i then ret true
      else if Nat.eqb i synthAttempts then throw "cdk synth failed"
      else emit (EvSleep synthRetryDelayMs) ;;; synthLoop ok (S i) fuel'
  end.

Definition synthesize (env : DeployEnv) : M unit :=
  synthOk <- synthLoop (de_synth_ok env) 1 synthAttempts ;;
  if synthOk then ret tt else throw "cdk synth did not succeed.".

(** The part of [main] after the gap analysis and the gate. *)
Definition deployAfterGate (env : DeployEnv) : M unit :=
  vpcStrategyStep env ;;;
  installDeps (de_has_lock env) (de_install_ok env) (de_install_retry_ok env) ;;;
  synthesize env ;;;
  sh EvDeploy (de_deploy_ok env) ;;;
  sh EvCheckResources (de_verify_ok env).

(** Steps "3/6 Analyze" and "4/6" of [main]: the public-IP precondition,
    the gap analysis and, when something is missing, the gate. *)
Definition analyzeAndConfirm (env : DeployEnv) : M unit :=
  match de_inventory env with
  | None => throw "Could not load resource inventory. Please check checkawsresources.ts"
  | Some inv =>
      updateInventoryWithPublicIP env ;;;
      if allResourcesExist (existingResources inv) then ret tt
      else confirmationGate env
  end.

(** Everything of [main] before the VPC strategy prompt. *)
Definition beforeDeploy (env : DeployEnv) : M unit :=
  ensureFile (de_package_json env) "cdk/package.json not found." ;;;
  ensureFile (de_check_script env) "checkawsresources.ts not found. Please create it first." ;;;
  sh EvCheckResources (de_check_ok env) ;;;
  analyzeAndConfirm env.

(** [async function main()] of deploy-infra.ts. *)
Definition deploy_main (env : DeployEnv) : M unit :=
  beforeDeploy env ;;; deployAfterGate env.

(** The same run with another answer at the VPC strategy prompt. *)
Definition with_vpc_choice (env : DeployEnv) (answer : string) : DeployEnv :=
  mkDeployEnv (de_package_json env) (de_check_script env) (de_check_ok env)
    (de_inventory env) (de_ip env) (de_inventory_file env) (de_confirm env)
    answer (de_vpc_id env) (de_context_ok env) (de_has_lock env)
    (de_install_ok env) (de_install_retry_ok env) (de_synth_ok env)
    (de_deploy_ok env) (de_verify_ok env).

(** ** delete-infra.ts *)

(** [loadInventory()] reads aws-inventory.json after the resource check:
    [None] when the file is missing or [JSON.parse] throws (the function
    then returns [null]), otherwise the parsed object.  The file holds an
    object whose members are arrays of the records the collector writes;
    the model keeps each member's name and the number of records in it, in
    file order. *)
Record DeleteEnv : Type := mkDeleteEnv {
  dl_package_json : bool;
  dl_check_script : bool;
  dl_check_ok : bool;         (* npx ts-node checkawsresources.ts *)
  dl_inventory : option (list (string * nat)); (* loadInventory() *)
  dl_cdk_list_ok : bool;      (* npx cdk list *)
  dl_confirm : string;        (* answer at the deletion gate *)
  dl_has_lock : bool;
  dl_install_ok : bool;
  dl_install_retry_ok : bool;
  dl_destroy_ok : bool;       (* npx cdk destroy --force *)
  dl_verify_ok : bool         (* final checkawsresources run *)
}.

Definition deletion_phrase : string := "DELETE ALL".

(** [async function getUserConfirmation()], after the prompt has been
    answered: [answer.trim().toUpperCase() === 'DELETE ALL']. *)
Definition getUserConfirmation (answer : string) : bool :=
  String.eqb (js_toUpperCase (js_trim answer)) deletion_phrase.

(** A member read on the parsed inventory, [undefined] being [None];
    [JSON.parse] keeps the last of duplicate members. *)
Definition inv_member (inv : list (string * nat)) (k : string) : option nat :=
  match find (fun m => String.eqb (fst m) k) (rev inv) with
  | Some m => Some (snd m)
  | None => None
  end.

(** The members whose [.length] [displayResourceSummary] reads, in order. *)
Definition summary_members : list string :=
  ["vpcs"; "subnets"; "routeTables"; "networkAcls"; "natGateways";
   "ec2Instances"; "rdsInstances"; "rdsProxies"; "s3Buckets";
   "apiGateways"; "cloudFrontDistributions"; "secrets"].

(** The error [inventory.k.length] throws when the member [k] is absent. *)
Definition summary_error : string :=
  "TypeError: Cannot read properties of undefined (reading 'length')".

(** The count lines of [displayResourceSummary]: [inventory.k.length] for
    each member [k] in turn, a [TypeError] on the first one the file lacks. *)
Fixpoint summaryCounts (inv : list (string * nat)) (ks : list string) : M unit :=
  match ks with
  | [] => ret tt
  | k :: ks' =>
      match inv_member inv k with
      | None => throw summary_error
      | Some _ => summaryCounts inv ks'
      end
  end.

(** [function displayResourceSummary(inventory)].  Past the count lines it
    only prints fields of the records of [vpcs], [ec2Instances],
    [rdsInstances] and [s3Buckets], which cannot throw on the collector's
    records. *)
Definition displayResourceSummary (inv : list (string * nat)) : M unit :=
  summaryCounts inv summary_members.

(** Step "2/4 Resource Overview" of [main]: [if (inventory)
    displayResourceSummary(inventory)], a message otherwise. *)
Definition resourceOverview (inventory : option (list (string * nat))) : M unit :=
  match inventory with
  | Some inv => displayResourceSummary inv
  | None => ret tt
  end.

(** [async function main()] of delete-infra.ts. *)
Definition delete_main (env : DeleteEnv) : M unit :=
  ensureFile (dl_package_json env) "cdk/package.json not found." ;;;
  ensureFile (dl_check_script env) "checkawsresources.ts not found. Please create it first." ;;;
  sh EvCheckResources (dl_check_ok env) ;;;
  resourceOverview (dl_inventory env) ;;;
  try_catch (sh EvCdkList (dl_cdk_list_ok env)) (fun _ => ret tt) ;;;
  emit EvPromptConfirm ;;;
  (if getUserConfirmation (dl_confirm env) then ret tt else early_return) ;;;
  installDeps (dl_has_lock env) (dl_install_ok env) (dl_install_retry_ok env) ;;;
  try_catch (sh EvDestroy (dl_destroy_ok env)) (fun e => throw e) ;;;
  try_catch (sh EvCheckResources (dl_verify_ok env)) (fun _ => ret tt).

(** ** checkawsresources.ts: [class AWSResourceInventory] *)

Module Collector.

Record Vpc : Type := mkVpc { VpcId : option string; VpcTags : option (list Tag) }.
Record Subnet : Type := mkSubnet {
  SubnetId : option string; SubnetVpcId : option string; SubnetTags : option (list Tag) }.
Record RouteTable : Type := mkRouteTable {
  RouteTableId : option string; RtVpcId : option string; RtTags : option (list Tag) }.
Record NetworkAcl : Type := mkNetworkAcl {
  NetworkAclId : option string; AclVpcId : option string; AclTags : option (list Tag) }.
Record NatGateway : Type := mkNatGateway {
  NatGatewayId : option string; NatSubnetId : option string; NatTags : option (list Tag) }.
Record Instance : Type := mkInstance {
  InstanceId : option string; InstSubnetId : option string; InstTags : option (list Tag) }.
Record Reservation : Type := mkReservation { Instances : option (list Instance) }.
Record DBInstance : Type := mkDBInstance {
  DBInstanceIdentifier : option string; TagList : option (list Tag) }.
Record Bucket : Type := mkBucket { BucketName : option string }.

(** The result of an SDK call: the resolved response or the rejection. *)
Inductive api (A : Type) : Type :=
  | ApiOk (a : A)
  | ApiErr (msg : string).
Arguments ApiOk {A} a.
Arguments ApiErr {A} msg.

(** The cloud account as seen through the SDK calls the collector makes.
    Listing responses carry an optional list ([response.Vpcs] may be
    [undefined]); [..._byId] are the one-resource lookups. *)
Record Cloud : Type := mkCloud {
  describeVpcs : api (option (list Vpc));
  describeVpcs_byId : string -> api (option (list Vpc));
  describeSubnets : api (option (list Subnet));
  describeSubnets_byId : string -> api (option (list Subnet));
  describeRouteTables : api (option (list RouteTable));
  describeNetworkAcls : api (option (list NetworkAcl));
  describeNatGateways : api (option (list NatGateway));
  describeInstances : api (option (list Reservation));
  describeDBInstances : api (option (list DBInstance));
  listBuckets : api (option (list Bucket));
  getBucketTagging : option string -> api (option (list Tag))
}.

Inductive kind : Type :=
  | KVpcs | KSubnets | KRouteTables | KNetworkAcls
  | KNatGateways | KEc2Instances | KRdsInstances | KS3Buckets.

Inductive log_line : Type :=
  | LogRetrieved (k : kind)          (* console.log(`✓ Retrieved ...`) *)
  | LogError (k : kind) (msg : string). (* console.error(`✗ Error retrieving ...`) *)

Definition or_empty {A} (l : option (list A)) : list A :=
  match l with Some l => l | None => [] end.

(** [x.Tags?.find(tag => tag.Key === 'Name')?.Value || ''] *)
Definition nameTag (tags : option (list Tag)) : string :=
  match tags with
  | None => ""
  | Some ts =>
      match find key_is_name ts with
      | Some t => match Value t with Some v => v | None => "" end
      | None => ""
      end
  end.

Definition includes_oculus (s : string) : bool :=
  js_includes (js_toLowerCase s) "oculus".

(** [private hasOculusName(name)] *)
Definition hasOculusName (name : string) : bool := includes_oculus name.

(** [private hasOculusTag(tags)] *)
Definition hasOculusTag (tags : list Tag) : bool :=
  existsb (fun t =>
    match Key t with Some k => includes_oculus k | None => false end ||
    match Value t with Some v => includes_oculus v | None => false end) tags.

(** The marker test applied to a resource itself: its [Name] tag, then
    its tags. *)
Definition selfMatches (tags : option (list Tag)) : bool :=
  if hasOculusName (nameTag tags) then true
  else hasOculusTag (or_empty tags).

(** [if (x.VpcId)]: an identifier that is present and non-empty. *)
Definition truthy_id (o : option string) : option string :=
  match o with
  | Some "" | None => None
  | Some s => Some s
  end.

(** The one-hop lookup of the owning VPC: [describeVpcs({VpcIds: [id]})],
    its first result tested by name, then by tags; a rejected lookup is
    caught and counts as no match. *)
Definition vpcMatches (c : Cloud) (vpcId : option string) : bool :=
  match truthy_id vpcId with
  | None => false
  | Some id =>
      match describeVpcs_byId c id with
      | ApiErr _ => false
      | ApiOk resp =>
          match or_empty resp with
          | vpc :: _ => selfMatches (VpcTags vpc)
          | [] => false
          end
      end
  end.

(** The two-call lookup of NAT gateways and instances: the subnet first,
    then its VPC, all inside one [try]. *)
Definition subnetVpcMatches (c : Cloud) (subnetId : option string) : bool :=
  match truthy_id subnetId with
  | None => false
  | Some id =>
      match describeSubnets_byId c id with
      | ApiErr _ => false
      | ApiOk resp =>
          match or_empty resp with
          | s :: _ => vpcMatches c (SubnetVpcId s)
          | [] => false
          end
      end
  end.

(** [try { const response = await call; console.log(...); return body }
    catch (error) { console.error(...); return []; }] *)
Definition listing {A B} (k : kind) (call : api (option (list A)))
    (body : list A -> list B) : list B * list log_line :=
  match call with
  | ApiOk resp => (body (or_empty resp), [LogRetrieved k])
  | ApiErr msg => ([], [LogError k msg])
  end.

Definition getVPCs (c : Cloud) : list Vpc * list log_line :=
  listing KVpcs (describeVpcs c)
    (filter (fun vpc => hasOculusName (nameTag (VpcTags vpc))
                        || hasOculusTag (or_empty (VpcTags vpc)))).

Definition keepSubnet (c : Cloud) (s : Subnet) : bool :=
  if selfMatches (SubnetTags s) then true else vpcMatches c (SubnetVpcId s).

Definition getSubnets (c : Cloud) : list Subnet * list log_line :=
  listing KSubnets (describeSubnets c) (filter (keepSubnet c)).

Definition keepRouteTable (c : Cloud) (rt : RouteTable) : bool :=
  if selfMatches (RtTags rt) then true else vpcMatches c (RtVpcId rt).

Definition getRouteTables (c : Cloud) : list RouteTable * list log_line :=
  listing KRouteTables (describeRouteTables c) (filter (keepRouteTable c)).

Definition keepNetworkAcl (c : Cloud) (acl : NetworkAcl) : bool :=
  if selfMatches (AclTags acl) then true else vpcMatches c (AclVpcId acl).

Definition getNetworkAcls (c : Cloud) : list NetworkAcl * list log_line :=
  listing KNetworkAcls (describeNetworkAcls c) (filter (keepNetworkAcl c)).

Definition keepNatGateway (c : Cloud) (nat : NatGateway) : bool :=
  if selfMatches (NatTags nat) then true else subnetVpcMatches c (NatSubnetId nat).

Definition getNatGateways (c : Cloud) : list NatGateway * list log_line :=
  listing KNatGateways (describeNatGateways c) (filter (keepNatGateway c)).

Definition keepInstance (c : Cloud) (i : Instance) : bool :=
  if selfMatches (InstTags i) then true else subnetVpcMatches c (InstSubnetId i).

Definition getEC2Instances (c : Cloud) : list Instance * list log_line :=
  listing KEc2Instances (describeInstances c)
    (fun rs => filter (keepInstance c) (flat_map (fun r => or_empty (Instances r)) rs)).

Definition getRDSInstances (c : Cloud) : list DBInstance * list log_line :=
  listing KRdsInstances (describeDBInstances c)
    (filter (fun i =>
       hasOculusName (match DBInstanceIdentifier i with Some n => n | None => "" end)
       || hasOculusTag (or_empty (TagList i)))).

(** The per-bucket body of [getS3Buckets]: the name test, then the tag
    lookup; a rejected tag lookup skips the bucket. *)
Definition keepBucket (c : Cloud) (b : Bucket) : bool :=
  match BucketName b with
  | Some n => includes_oculus n
  | None => false
  end ||
  match getBucketTagging c (BucketName b) with
  | ApiOk tags => hasOculusTag (or_empty tags)
  | ApiErr _ => false
  end.

Definition getS3Buckets (c : Cloud) : list Bucket * list log_line :=
  listing KS3Buckets (listBuckets c) (filter (keepBucket c)).

(** [interface ResourceInventory] of checkawsresources.ts *)
Record Snapshot : Type := mkSnapshot {
  s_vpcs : list Vpc;
  s_subnets : list Subnet;
  s_routeTables : list RouteTable;
  s_networkAcls : list NetworkAcl;
  s_natGateways : list NatGateway;
  s_ec2Instances : list Instance;
  s_rdsInstances : list DBInstance;
  s_s3Buckets : list Bucket
}.

(** [async collectInventory()]: the eight listings under [Promise.all];
    each listing catches its own errors, so [Promise.all] never rejects.
    The log lines are given in call order (their interleaving is not
    fixed by the code). *)
Definition collectInventory (c : Cloud) : Snapshot * list log_line :=
  let '(vpcs, l1) := getVPCs c in
  let '(subnets, l2) := getSubnets c in
  let '(routeTables, l3) := getRouteTables c in
  let '(networkAcls, l4) := getNetworkAcls c in
  let '(natGateways, l5) := getNatGateways c in
  let '(ec2Instances, l6) := getEC2Instances c in
  let '(rdsInstances, l7) := getRDSInstances c in
  let '(s3Buckets, l8) := getS3Buckets c in
  (mkSnapshot vpcs subnets routeTables networkAcls natGateways ec2Instances
              rdsInstances s3Buckets,
   l1 ++ l2 ++ l3 ++ l4 ++ l5 ++ l6 ++ l7 ++ l8)%list.

(** Fault injection: the listing call of kind [k] rejects with [msg];
    every other call, including the one-resource lookups, is unchanged. *)
Definition fail_listing (k : kind) (msg : string) (c : Cloud) : Cloud :=
  match k with
  | KVpcs => mkCloud (ApiErr msg) (describeVpcs_byId c) (describeSubnets c)
      (describeSubnets_byId c) (describeRouteTables c) (describeNetworkAcls c)
      (describeNatGateways c) (describeInstances c) (describeDBInstances c)
      (listBuckets c) (getBucketTagging c)
  | KSubnets => mkCloud (describeVpcs c) (describeVpcs_byId c) (ApiErr msg)
      (describeSubnets_byId c) (describeRouteTables c) (describeNetworkAcls c)
      (describeNatGateways c) (describeInstances c) (describeDBInstances c)
      (listBuckets c) (getBucketTagging c)
  | KRouteTables => mkCloud (describeVpcs c) (describeVpcs_byId c) (describeSubnets c)
      (describeSubnets_byId c) (ApiErr msg) (describeNetworkAcls c)
      (describeNatGateways c) (describeInstances c) (describeDBInstances c)
      (listBuckets c) (getBucketTagging c)
  | KNetworkAcls => mkCloud (describeVpcs c) (describeVpcs_byId c) (describeSubnets c)
      (describeSubnets_byId c) (describeRouteTables c) (ApiErr msg)
      (describeNatGateways c) (describeInstances c) (describeDBInstances c)
      (listBuckets c) (getBucketTagging c)
  | KNatGateways => mkCloud (describeVpcs c) (describeVpcs_byId c) (describeSubnets c)
      (describeSubnets_byId c) (describeRouteTables c) (describeNetworkAcls c)
      (ApiErr msg) (describeInstances c) (describeDBInstances c)
      (listBuckets c) (getBucketTagging c)
  | KEc2Instances => mkCloud (describeVpcs c) (describeVpcs_byId c) (describeSubnets c)
      (describeSubnets_byId c) (describeRouteTables c) (describeNetworkAcls c)
      (describeNatGateways c) (ApiErr msg) (describeDBInstances c)
      (listBuckets c) (getBucketTagging c)
  | KRdsInstances => mkCloud (describeVpcs c) (describeVpcs_byId c) (describeSubnets c)
      (describeSubnets_byId c) (describeRouteTables c) (describeNetworkAcls c)
      (describeNatGateways c) (describeInstances c) (ApiErr msg)
      (listBuckets c) (getBucketTagging c)
  | KS3Buckets => mkCloud (describeVpcs c) (describeVpcs_byId c) (describeSubnets c)
      (describeSubnets_byId c) (describeRouteTables c) (describeNetworkAcls c)
      (describeNatGateways c) (describeInstances c) (describeDBInstances c)
      (ApiErr msg) (getBucketTagging c)
  end.

(** The snapshot with the list of kind [k] emptied. *)
Definition clear_kind (k : kind) (s : Snapshot) : Snapshot :=
  match k with
  | KVpcs => mkSnapshot [] (s_subnets s) (s_routeTables s) (s_networkAcls s)
      (s_natGateways s) (s_ec2Instances s) (s_rdsInstances s) (s_s3Buckets s)
  | KSubnets => mkSnapshot (s_vpcs s) [] (s_routeTables s) (s_networkAcls s)
      (s_natGateways s) (s_ec2Instances s) (s_rdsInstances s) (s_s3Buckets s)
  | KRouteTables => mkSnapshot (s_vpcs s) (s_subnets s) [] (s_networkAcls s)
      (s_natGateways s) (s_ec2Instances s) (s_rdsInstances s) (s_s3Buckets s)
  | KNetworkAcls => mkSnapshot (s_vpcs s) (s_subnets s) (s_routeTables s) []
      (s_natGateways s) (s_ec2Instances s) (s_rdsInstances s) (s_s3Buckets s)
  | KNatGateways => mkSnapshot (s_vpcs s) (s_subnets s) (s_routeTables s) (s_networkAcls s)
      [] (s_ec2Instances s) (s_rdsInstances s) (s_s3Buckets s)
  | KEc2Instances => mkSnapshot (s_vpcs s) (s_subnets s) (s_routeTables s) (s_networkAcls s)
      (s_natGateways s) [] (s_rdsInstances s) (s_s3Buckets s)
  | KRdsInstances => mkSnapshot (s_vpcs s) (s_subnets s) (s_routeTables s) (s_networkAcls s)
      (s_natGateways s) (s_ec2Instances s) [] (s_s3Buckets s)
  | KS3Buckets => mkSnapshot (s_vpcs s) (s_subnets s) (s_routeTables s) (s_networkAcls s)
      (s_natGateways s) (s_ec2Instances s) (s_rdsInstances s) []
  end.

End Collector.

(** ** Environment-file generators (generate-env.ts, generate-lambda-env.ts) *)

Module EnvGen.

(** The local file system: path to file content. *)
Definition FS : Type := string -> option string.

Definition existsSync (fs : FS) (p : string) : bool :=
  match fs p with Some _ => true | None => false end.

Definition writeFileSync (fs : FS) (p content : string) : FS :=
  fun q => if String.eqb q p then Some content else fs q.

(** [fs.copyFileSync(src, dst)]; [None] when it throws (missing source). *)
Definition copyFileSync (fs : FS) (src dst : string) : option FS :=
  match fs src with
  | Some content => Some (writeFileSync fs dst content)
  | None => None
  end.

(** Step "4/4 Save Environment File" of both generators:
    [if (fs.existsSync(envPath)) { fs.copyFileSync(envPath, backupPath); ... }
     fs.writeFileSync(envPath, envContent);] *)
Definition saveEnvFile (fs : FS) (envPath backupPath envContent : string) : option FS :=
  if existsSync fs envPath then
    match copyFileSync fs envPath backupPath with
    | Some fs' => Some (writeFileSync fs' envPath envContent)
    | None => None
    end
  else Some (writeFileSync fs envPath envContent).

(** A generator run: [generated] is the content produced by
    [generateEnvContent] / [generateLambdaEnvContent] ([None] when it throws,
    e.g. no API Gateway in the inventory); the file system is touched only
    by the save step. *)
Definition generatorRun (fs : FS) (envPath backupPath : string)
    (generated : option string) : option FS :=
  match generated with
  | Some envContent => saveEnvFile fs envPath backupPath envContent
  | None => None
  end.

(** generate-env.ts: [path.join(appDir, ".env.local")] and its backup. *)
Definition appEnvPath : string := "../app/.env.local".
Definition appBackupPath : string := "../app/.env.local.backup".

(** generate-lambda-env.ts: [path.join(lambdasDir, ".env")] and its backup. *)
Definition lambdaEnvPath : string := "../lambdas/.env".
Definition lambdaBackupPath : string := "../lambdas/.env.backup".

End EnvGen.

(** ** lambdas/api.ts: the survey handler *)

Module Api.

(** Parsed JSON values; objects keep their members in source order. *)
Set Warnings "-register-all".
Inductive json : Type :=
  | JNull
  | JBool (b : bool)
  | JNum (n : Z)
  | JStr (s : string)
  | JArr (xs : list json)
  | JObj (members : list (string * json)).

(** The request body text together with its [JSON.parse] result
    ([None] when parsing throws); an absent body is [None] in the event. *)
Inductive body : Type :=
  | BodyText (raw : string) (parsed : option json).

Record APIGatewayEvent : Type := mkEvent {
  httpMethod : string;
  path : string;
  ev_body : option body
}.

Record APIGatewayResponse : Type := mkResponse {
  statusCode : Z;
  resp_body : json
}.

(** JavaScript truthiness, [None] standing for [undefined]. *)
Definition truthy (v : option json) : bool :=
  match v with
  | None | Some JNull => false
  | Some (JBool b) => b
  | Some (JNum n) => negb (Z.eqb n 0)
  | Some (JStr s) => negb (String.eqb s "")
  | Some (JArr _) | Some (JObj _) => true
  end.

Definition isArray (v : option json) : bool :=
  match v with Some (JArr _) => true | _ => false end.

(** Property read for destructuring; [JSON.parse] keeps the last of
    duplicate members.  Destructuring [null] throws a [TypeError]. *)
Definition get_prop (j : json) (k : string) : option (option json) :=
  match j with
  | JNull => None
  | JObj ms =>
      Some (match find (fun m => String.eqb (fst m) k) (rev ms) with
            | Some m => Some (snd m)
            | None => None
            end)
  | _ => Some None
  end.

(** [async function submitSurveyAnswer(db, body)]: [inl msg] when it throws,
    [inr result] otherwise. *)
Definition submitSurveyAnswer (b : option body) (now : string) : string + json :=
  match b with
  | None | Some (BodyText "" _) => inl "Request body is required"
  | Some (BodyText _ None) => inl "SyntaxError: Unexpected token in JSON"
  | Some (BodyText _ (Some j)) =>
      match get_prop j "question_id", get_prop j "selected_answers" with
      | Some question_id, Some selected_answers =>
          if negb (truthy question_id) || negb (truthy selected_answers)
             || negb (isArray selected_answers)
          then inl "Invalid request: question_id and selected_answers array are required"
          else
            let field k v := match v with Some x => [(k, x)] | None => [] end in
            inr (JObj ([("message", JStr "Answer submitted successfully")]
                       ++ field "question_id" question_id
                       ++ field "selected_answers" selected_answers
                       ++ [("submitted_at", JStr now)])%list)
      | _, _ => inl "TypeError: Cannot destructure"
      end
  end.

Definition error_response (code : Z) (j : json) : APIGatewayResponse :=
  mkResponse code j.

(** [export const handler] for the POST route; [db_ok] says whether reading
    the secret and connecting through the proxy succeed, [question] is the
    value [getSurveyQuestion] resolves to on the GET route.  The GET route
    with its failures, and the error's message in the 500 body, is
    [ApiQuery.questionRoute]. *)
Definition handler (db_ok : bool) (now : string) (question : json)
    (ev : APIGatewayEvent) : APIGatewayResponse :=
  if negb db_ok then
    error_response 500 (JObj [("error", JStr "Internal server error")])
  else if String.eqb (httpMethod ev) "GET" && js_includes (path ev) "/survey/nist-csf" then
    mkResponse 200 question
  else if String.eqb (httpMethod ev) "POST" && js_includes (path ev) "/survey/submit" then
    match submitSurveyAnswer (ev_body ev) now with
    | inr result => mkResponse 200 result
    | inl msg => error_response 500 (JObj [("error", JStr "Internal server error");
                                           ("message", JStr msg)])
    end
  else error_response 404 (JObj [("error", JStr "Endpoint not found")]).

Definition is_ack (r : APIGatewayResponse) : bool :=
  Z.eqb (statusCode r) 200 &&
  match resp_body r with
  | JObj (("message", JStr "Answer submitted successfully") :: _) => true
  | _ => false
  end.

(** [selected_answers.length] in the Next.js route. *)
Definition js_length (v : option json) : option nat :=
  match v with
  | Some (JArr xs) => Some (length xs)
  | Some (JStr s) => Some (String.length s)
  | _ => None
  end.

(** The validation of app/src/app/api/submit-answer/route.ts, the
    frontend's proxy to this endpoint: [true] when it answers 400
    ([!question_id || !selected_answers || selected_answers.length === 0]). *)
Definition route_rejects (j : json) : bool :=
  match get_prop j "question_id", get_prop j "selected_answers" with
  | Some q, Some sa =>
      negb (truthy q) || negb (truthy sa) ||
      match js_length sa with Some 0 => true | _ => false end
  | _, _ => false
  end.

End Api.

(** ** Environment-file contents (generate-env.ts, generate-lambda-env.ts) *)

Module EnvContent.

Definition newline : string := String (ascii_of_nat 10) EmptyString.

(** A template literal whose lines are [ls], each ended by a line feed. *)
Fixpoint unlines (ls : list string) : string :=
  match ls with
  | [] => EmptyString
  | l :: r => l ++ newline ++ unlines r
  end.

(** [xs?.[0]] on an optional array. *)
Definition first {A} (xs : option (list A)) : option A :=
  match xs with Some (x :: _) => Some x | _ => None end.

Record ApiGateway : Type := mkApiGateway {
  gw_id : string; gw_name : string; prodStageName : option string }.

(** [apiGateway.prodStageName || 'prod'] *)
Definition stageOrProd (s : option string) : string :=
  match s with
  | None | Some EmptyString => "prod"
  | Some st => st
  end.

(** [`https://${apiGateway.id}.execute-api.us-east-1.amazonaws.com/${...}`] *)
Definition apiUrl (gw : ApiGateway) : string :=
  "https://" ++ gw_id gw ++ ".execute-api.us-east-1.amazonaws.com/"
  ++ stageOrProd (prodStageName gw).

Record CloudFrontDistribution : Type := mkCloudFront { cf_Id : string; DomainName : string }.
Record S3Bucket : Type := mkS3Bucket { b_Name : string }.
Record RdsProxy : Type := mkRdsProxy { Endpoint : string }.
Record Secret : Type := mkSecret { ARN : string; sec_Name : string }.

(** [interface AWSInventory] of generate-env.ts (the fields it reads). *)
Record AppInventory : Type := mkAppInventory {
  apiGateways : option (list ApiGateway);
  cloudFrontDistributions : option (list CloudFrontDistribution);
  app_s3Buckets : option (list S3Bucket);
  app_rdsProxies : option (list RdsProxy) }.

(** [function generateEnvContent(inventory)]: [inl msg] when it throws;
    [now] is [new Date().toISOString()]. *)
Definition generateEnvContent (inv : AppInventory) (now : string) : string + string :=
  let apiGateway := first (apiGateways inv) in
  let cloudFront := first (cloudFrontDistributions inv) in
  let s3Bucket := first (app_s3Buckets inv) in
  let rdsProxy := first (app_rdsProxies inv) in
  match apiGateway with
  | None => inl "No API Gateway found in inventory. Please run deploy-infra.ts first."
  | Some gw => inr (unlines [
    "# Next.js Frontend Environment Configuration";
    "# Auto-generated from AWS infrastructure inventory";
    "# Generated on: " ++ now;
    "# ";
    "# ⚠️  WARNING: This file is auto-generated. Manual changes will be overwritten.";
    "# To preserve manual changes, rename this file or modify the generation script.";
    "";
    "# =============================================================================";
    "# Application Configuration";
    "# =============================================================================";
    "NODE_ENV=development";
    "NEXT_PUBLIC_APP_NAME=Oculus";
    "NEXT_PUBLIC_APP_VERSION=1.0.0";
    "NEXT_PUBLIC_APP_DESCRIPTION=Full-stack AWS application";
    "";
    "# =============================================================================";
    "# API Configuration";
    "# =============================================================================";
    "NEXT_PUBLIC_API_URL=" ++ apiUrl gw;
    "NEXT_PUBLIC_API_TIMEOUT=30000";
    "NEXT_PUBLIC_ENABLE_API_LOGGING=true";
    "";
    "# =============================================================================";
    "# Frontend Configuration";
    "# =============================================================================";
    "NEXT_PUBLIC_ENABLE_ANALYTICS=false";
    "NEXT_PUBLIC_ENABLE_DEBUG_MODE=true";
    "NEXT_PUBLIC_APP_ENVIRONMENT=development";
    "";
    "# =============================================================================";
    "# Development Configuration";
    "# =============================================================================";
    "NEXT_PUBLIC_DEV_MODE=true";
    "NEXT_PUBLIC_ENABLE_HOT_RELOAD=true";
    "NEXT_PUBLIC_PORT=3000";
    "";
    "# =============================================================================";
    "# Build Configuration";
    "# =============================================================================";
    "NEXT_PUBLIC_BUILD_ID=development";
    "NEXT_PUBLIC_SOURCE_MAPS=true";
    "NEXT_PUBLIC_OPTIMIZE_BUNDLES=true";
    "";
    "# =============================================================================";
    "# Optional: External Services";
    "# =============================================================================";
    "NEXT_PUBLIC_GOOGLE_ANALYTICS_ID=";
    "NEXT_PUBLIC_SENTRY_DSN=";
    "NEXT_PUBLIC_STRIPE_PUBLISHABLE_KEY=";
    "";
    "# =============================================================================";
    "# AWS Resource Information (for reference)";
    "# =============================================================================";
    "# API Gateway ID: " ++ gw_id gw;
    "# API Gateway Name: " ++ gw_name gw;
    match cloudFront with Some cf => "# CloudFront Domain: " ++ DomainName cf | None => "# CloudFront: Not found" end;
    match s3Bucket with Some b => "# S3 Bucket: " ++ b_Name b | None => "# S3 Bucket: Not found" end;
    match rdsProxy with Some p => "# RDS Proxy: " ++ Endpoint p | None => "# RDS Proxy: Not found" end])
  end.

(** [interface AWSInventory] of generate-lambda-env.ts (the fields it
    reads). *)
Record LambdaInventory : Type := mkLambdaInventory {
  lam_rdsProxies : option (list RdsProxy);
  secrets : option (list Secret);
  lam_apiGateways : option (list ApiGateway) }.

(** [inventory.secrets?.find(s => s.Name.includes('db_secret'))] *)
Definition findDbSecret (ss : option (list Secret)) : option Secret :=
  match ss with
  | None => None
  | Some l => find (fun s => js_includes (sec_Name s) "db_secret") l
  end.

(** [function generateLambdaEnvContent(inventory)] *)
Definition generateLambdaEnvContent (inv : LambdaInventory) (now : string) : string + string :=
  let rdsProxy := first (lam_rdsProxies inv) in
  let dbSecret := findDbSecret (secrets inv) in
  let apiGateway := first (lam_apiGateways inv) in
  match rdsProxy with
  | None => inl "No RDS Proxy found in inventory. Please run deploy-infra.ts first."
  | Some proxy =>
      match dbSecret with
      | None => inl "No database secret found in inventory. Please run deploy-infra.ts first."
      | Some secret => inr (unlines [
    "# Lambda Functions Environment Configuration";
    "# Auto-generated from AWS infrastructure inventory";
    "# Generated on: " ++ now;
    "# ";
    "# ⚠️  WARNING: This file is auto-generated. Manual changes will be overwritten.";
    "# To preserve manual changes, rename this file or modify the generation script.";
    "";
    "# =============================================================================";
    "# AWS Configuration";
    "# =============================================================================";
    "AWS_REGION=us-east-1";
    "AWS_PROFILE=default";
    "";
    "# =============================================================================";
    "# Database Configuration";
    "# =============================================================================";
    "PGHOST=" ++ Endpoint proxy;
    "PGPORT=5432";
    "PGDATABASE=postgres";
    "DB_SECRET_ARN=" ++ ARN secret;
    "";
    "# =============================================================================";
    "# Lambda Configuration";
    "# =============================================================================";
    "LAMBDA_RUNTIME=nodejs18.x";
    "LAMBDA_MEMORY_SIZE=256";
    "LAMBDA_TIMEOUT=30";
    "LAMBDA_LOG_LEVEL=info";
    "";
    "# =============================================================================";
    "# API Configuration";
    "# =============================================================================";
    match apiGateway with Some gw => "API_GATEWAY_URL=" ++ apiUrl gw | None => "# API Gateway: Not found" end;
    "API_VERSION=v1";
    "ENABLE_CORS=true";
    "ALLOWED_ORIGINS=http://localhost:3000,https://d1hsa6nbfa6rl5.cloudfront.net";
    "";
    "# =============================================================================";
    "# Database Connection";
    "# =============================================================================";
    "DB_CONNECTION_TIMEOUT=5000";
    "DB_QUERY_TIMEOUT=10000";
    "DB_POOL_SIZE=5";
    "DB_IDLE_TIMEOUT=30000";
    "";
    "# =============================================================================";
    "# Logging & Monitoring";
    "# =============================================================================";
    "ENABLE_STRUCTURED_LOGGING=true";
    "LOG_REQUEST_BODY=false";
    "LOG_RESPONSE_BODY=false";
    "ENABLE_XRAY_TRACING=false";
    "";
    "# =============================================================================";
    "# Security Configuration";
    "# =============================================================================";
    "ENABLE_API_KEY_AUTH=false";
    "ENABLE_JWT_AUTH=false";
    "ENABLE_RATE_LIMITING=false";
    "MAX_REQUESTS_PER_MINUTE=1000";
    "";
    "# =============================================================================";
    "# AWS Resource Information (for reference)";
    "# =============================================================================";
    "# RDS Proxy Endpoint: " ++ Endpoint proxy;
    "# Database Secret: " ++ sec_Name secret;
    "# Database Secret ARN: " ++ ARN secret;
    match apiGateway with Some gw => "# API Gateway ID: " ++ gw_id gw | None => "# API Gateway: Not found" end;
    match apiGateway with Some gw => "# API Gateway Name: " ++ gw_name gw | None => "# API Gateway Name: Not found" end])
      end
  end.

(** [{ success: boolean; error?: string; details?: string }] *)
Record TestResult : Type := mkTestResult {
  success : bool; t_error : option string; details : option string }.

(** [async function testRDSProxyConnection(endpoint)] *)
Definition testRDSProxyConnection (endpoint : string) : TestResult :=
  if js_includes endpoint ".rds.amazonaws.com" && js_includes endpoint "proxy"
  then mkTestResult true None (Some "Endpoint format is valid")
  else mkTestResult false (Some "Invalid RDS Proxy endpoint format") None.

(** [async function testAPIGatewayAccessibility(apiUrl)] *)
Definition testAPIGatewayAccessibility (url : string) : TestResult :=
  if js_includes url "execute-api." && js_includes url ".amazonaws.com"
  then mkTestResult true None (Some "URL format is valid")
  else mkTestResult false (Some "Invalid API Gateway URL format") None.

(** [async function performConnectionTests(inventory)] *)
Definition performConnectionTests (inv : LambdaInventory) : TestResult * TestResult :=
  let rdsProxyTest :=
    match first (lam_rdsProxies inv) with
    | Some p => testRDSProxyConnection (Endpoint p)
    | None => mkTestResult false (Some "No RDS Proxy found") None
    end in
  let apiGatewayTest :=
    match first (lam_apiGateways inv) with
    | Some gw => testAPIGatewayAccessibility (apiUrl gw)
    | None => mkTestResult false (Some "No API Gateway found") None
    end in
  (rdsProxyTest, apiGatewayTest).



End EnvContent.

(** ** The question route of lambdas/api.ts *)

Module ApiQuery.

(** A result row of [db.query]: its columns in order. *)
Definition row : Type := list (string * Api.json).

(** [async function getSurveyQuestion(db)]: [questionQuery] is the outcome
    of the first query ([LIMIT 1]), [answersQuery id] that of the second
    one for the parameter [id] ([None] standing for [undefined]); [inl msg]
    when an awaited query rejects with [msg]. *)
Definition getSurveyQuestion (questionQuery : Collector.api (list row))
    (answersQuery : option Api.json -> Collector.api (list row)) : string + Api.json :=
  match questionQuery with
  | Collector.ApiErr msg => inl msg
  | Collector.ApiOk [] => inr (Api.JObj [("error", Api.JStr "No questions found")])
  | Collector.ApiOk (question :: _) =>
      let question_id :=
        match Api.get_prop (Api.JObj question) "question_id" with
        | Some v => v
        | None => None
        end in
      match answersQuery question_id with
      | Collector.ApiErr msg => inl msg
      | Collector.ApiOk rows =>
          inr (Api.JObj [("question", Api.JObj question);
                         ("answers", Api.JArr (map Api.JObj rows))])
      end
  end.

(** The [catch] of [handler]: 500 with the error's message. *)
Definition internal_error (msg : string) : Api.APIGatewayResponse :=
  Api.error_response 500 (Api.JObj [("error", Api.JStr "Internal server error");
                                    ("message", Api.JStr msg)]).

(** [handler] on a GET whose path includes "/survey/nist-csf": [connect] is
    the outcome of reading the secret and [db.connect()], [dbEnd] that of
    [db.end()]. *)
Definition questionRoute (connect : Collector.api unit)
    (questionQuery : Collector.api (list row))
    (answersQuery : option Api.json -> Collector.api (list row))
    (dbEnd : Collector.api unit) : Api.APIGatewayResponse :=
  match connect with
  | Collector.ApiErr msg => internal_error msg
  | Collector.ApiOk _ =>
      match getSurveyQuestion questionQuery answersQuery with
      | inl msg => internal_error msg
      | inr result =>
          match dbEnd with
          | Collector.ApiErr msg => internal_error msg
          | Collector.ApiOk _ => Api.mkResponse 200 result
          end
      end
  end.

End ApiQuery.

(** ** deploy-lambda.ts: updating the API function's code *)

Module LambdaDeploy.








End LambdaDeploy.

(** ** deploy-app.ts: building and publishing the frontend *)

Module DeployApp.

(** Actions of the script. *)
Inductive da_event : Type :=
  | DaNpmInstall                          (* sh("npm install", { cwd: appDir }) *)
  | DaBuild                               (* sh("npm run build", { cwd: appDir }) *)
  | DaS3Sync (outDir bucketName : string) (* aws s3 sync outDir s3://bucketName --delete *)
  | DaInvalidate (distributionId : string). (* aws cloudfront create-invalidation ... *)

Definition is_sync (e : da_event) : bool :=
  match e with DaS3Sync _ _ => true | _ => false end.

Definition is_invalidate (e : da_event) : bool :=
  match e with DaInvalidate _ => true | _ => false end.

(** [path.join(appDir, "out")], relative to the cdk directory. *)
Definition appOutDir : string := "../app/out".

(** The run's environment.  [da_inventory] is [JSON.parse] of
    aws-inventory.json ([None] when it throws); the file is read three
    times, unchanged in between. *)
Record AppDeployEnv : Type := mkAppDeployEnv {
  da_package_json : bool;       (* cdk/package.json exists *)
  da_app_dir : bool;            (* ../app exists *)
  da_app_package_json : bool;   (* ../app/package.json exists *)
  da_inventory_file : bool;     (* aws-inventory.json exists *)
  da_inventory : option EnvContent.AppInventory;
  da_install_ok : bool;
  da_build_ok : bool;
  da_out_dir : bool;            (* ../app/out exists after the build *)
  da_sync_ok : bool;
  da_invalidate_ok : bool
}.

(** [async function main()] of deploy-app.ts.  Steps 4/5 (a message about
    Lambda updates) and 5/5 (the summary) catch their own errors and
    perform no action, so they do not appear. *)
Definition deployAppMain (env : AppDeployEnv) : outcome unit * list da_event :=
  if negb (da_package_json env) then (Thrown "cdk/package.json not found.", [])
  else if negb (da_app_dir env) then
    (Thrown "App directory not found. Please create the Next.js app first.", [])
  else if negb (da_app_package_json env) then
    (Thrown "Next.js app package.json not found.", [])
  else if negb (da_inventory_file env) then
    (Thrown "aws-inventory.json not found. Please run deploy-infra.ts first.", [])
  else
    match da_inventory env with
    | None => (Thrown "SyntaxError: Unexpected token in JSON", [])
    | Some inventory =>
        let tr1 := [DaNpmInstall] in
        if negb (da_install_ok env) then (Thrown "Command failed", tr1) else
        let tr2 := app tr1 [DaBuild] in
        if negb (da_build_ok env) then (Thrown "Command failed", tr2) else
        match EnvContent.first (EnvContent.app_s3Buckets inventory) with
        | None =>
            (Thrown "No S3 buckets found in inventory. Please run deploy-infra.ts first.", tr2)
        | Some bucket =>
            if negb (da_out_dir env) then
              (Thrown "Build output directory not found. Please ensure Next.js build completed successfully.", tr2)
            else
              let tr3 := app tr2 [DaS3Sync appOutDir (EnvContent.b_Name bucket)] in
              if negb (da_sync_ok env) then (Thrown "Command failed", tr3) else
              match EnvContent.first (EnvContent.cloudFrontDistributions inventory) with
              | None => (Normal tt, tr3)
              | Some cf =>
                  let tr4 := app tr3 [DaInvalidate (EnvContent.cf_Id cf)] in
                  if negb (da_invalidate_ok env) then (Thrown "Command failed", tr4)
                  else (Normal tt, tr4)
              end
        end
    end.

End DeployApp.

(** ** Observations used to state properties of the runs *)

(** The body received from checkip.amazonaws.com: the data chunks in order. *)
Fixpoint received (evs : list ip_event) : string :=
  match evs with
  | [] => EmptyString
  | IpData c :: r => c ++ received r
  | _ :: r => received r
  end.

(** The same deletion run with another outcome of [npx cdk list]. *)
Definition with_cdk_list_ok (env : DeleteEnv) (b : bool) : DeleteEnv :=
  mkDeleteEnv (dl_package_json env) (dl_check_script env) (dl_check_ok env)
    (dl_inventory env) b (dl_confirm env) (dl_has_lock env) (dl_install_ok env) (dl_install_retry_ok env)
    (dl_destroy_ok env) (dl_verify_ok env).

(** The log line a listing writes for its call's outcome, the kind a log
    line is about, and the log line of each kind in a collection. *)
Definition api_log {A} (k : Collector.kind) (r : Collector.api A) : Collector.log_line :=
  match r with
  | Collector.ApiOk _ => Collector.LogRetrieved k
  | Collector.ApiErr msg => Collector.LogError k msg
  end.

Definition log_kind (l : Collector.log_line) : Collector.kind :=
  match l with Collector.LogRetrieved k | Collector.LogError k _ => k end.

Definition kind_eqb (k k' : Collector.kind) : bool :=
  match k, k' with
  | Collector.KVpcs, Collector.KVpcs | Collector.KSubnets, Collector.KSubnets
  | Collector.KRouteTables, Collector.KRouteTables
  | Collector.KNetworkAcls, Collector.KNetworkAcls
  | Collector.KNatGateways, Collector.KNatGateways
  | Collector.KEc2Instances, Collector.KEc2Instances
  | Collector.KRdsInstances, Collector.KRdsInstances
  | Collector.KS3Buckets, Collector.KS3Buckets => true
  | _, _ => false
  end.

Definition listing_log (c : Collector.Cloud) (k : Collector.kind) : Collector.log_line :=
  match k with
  | Collector.KVpcs => api_log k (Collector.describeVpcs c)
  | Collector.KSubnets => api_log k (Collector.describeSubnets c)
  | Collector.KRouteTables => api_log k (Collector.describeRouteTables c)
  | Collector.KNetworkAcls => api_log k (Collector.describeNetworkAcls c)
  | Collector.KNatGateways => api_log k (Collector.describeNatGateways c)
  | Collector.KEc2Instances => api_log k (Collector.describeInstances c)
  | Collector.KRdsInstances => api_log k (Collector.describeDBInstances c)
  | Collector.KS3Buckets => api_log k (Collector.listBuckets c)
  end.

(** Whether [submitSurveyAnswer] returned rather than threw. *)
Definition accepted (r : string + Api.json) : bool :=
  match r with inr _ => true | inl _ => false end.

(** ** Sample data used by the concrete runs below *)

Definition lf : string := String (ascii_of_nat 10) "".

Definition sub_public : DSubnet := mkDSubnet (Some true) None.
Definition sub_private : DSubnet :=
  mkDSubnet (Some false) (Some [mkTag (Some "Name") (Some "oculus-Private-1")]).

(** Every checked kind present. *)
Definition inv_complete : Inventory :=
  mkInventory ["vpc-1"] [sub_public; sub_private; sub_private] ["rtb-1"] ["acl-1"] []
    (Some ["igw-1"]) (Some ["sg-1"]) ["i-1"] ["oculusdb"] (Some ["oculus-proxy"])
    ["oculus-site"].

(** Everything present except a subnet classified as public. *)
Definition inv_no_public : Inventory :=
  mkInventory ["vpc-1"] [sub_private; sub_private; sub_private] ["rtb-1"] ["acl-1"] []
    (Some ["igw-1"]) (Some ["sg-1"]) ["i-1"] ["oculusdb"] (Some ["oculus-proxy"])
    ["oculus-site"].

(** A run in which every command succeeds. *)
Definition sample_env (inv : Inventory) (confirm vpc : string) : DeployEnv :=
  mkDeployEnv true true true (Some inv) [IpData "203.0.113.7"; IpData lf; IpEnd 200%Z]
    true confirm vpc "vpc-0abc" (fun _ => true) true true true (fun _ => true) true true.


(** aws-inventory.json as the collector's [main] writes it:
    [JSON.stringify(resources)] of the object [collectInventory] returns. *)
Definition collector_file (snap : Collector.Snapshot) : list (string * nat) :=
  [("vpcs", length (Collector.s_vpcs snap));
   ("subnets", length (Collector.s_subnets snap));
   ("routeTables", length (Collector.s_routeTables snap));
   ("networkAcls", length (Collector.s_networkAcls snap));
   ("natGateways", length (Collector.s_natGateways snap));
   ("ec2Instances", length (Collector.s_ec2Instances snap));
   ("rdsInstances", length (Collector.s_rdsInstances snap));
   ("s3Buckets", length (Collector.s_s3Buckets snap))].

(** [true] when the resource summary can print every count line: the
    inventory did not load, or it has every member the summary reads. *)
Definition summary_readable (o : option (list (string * nat))) : bool :=
  match o with
  | None => true
  | Some inv =>
      forallb (fun k => match inv_member inv k with Some _ => true | None => false end)
        summary_members
  end.


(** An account with one VPC named "oculus-vpc" and one untagged subnet in
    it; [lookup_ok] says whether the one-resource lookups succeed or are
    throttled. *)
Definition c7_vpc : Collector.Vpc :=
  Collector.mkVpc (Some "vpc-1") (Some [mkTag (Some "Name") (Some "oculus-vpc")]).
Definition c7_subnet : Collector.Subnet :=
  Collector.mkSubnet (Some "subnet-1") (Some "vpc-1") (Some []).
Definition c7_cloud (lookup_ok : bool) : Collector.Cloud :=
  Collector.mkCloud (Collector.ApiOk (Some [c7_vpc]))
    (fun _ => if lookup_ok then Collector.ApiOk (Some [c7_vpc])
              else Collector.ApiErr "Rate exceeded")
    (Collector.ApiOk (Some [c7_subnet]))
    (fun _ => if lookup_ok then Collector.ApiOk (Some [c7_subnet])
              else Collector.ApiErr "Rate exceeded")
    (Collector.ApiOk (Some [])) (Collector.ApiOk (Some []))
    (Collector.ApiOk (Some [])) (Collector.ApiOk (Some []))
    (Collector.ApiOk (Some [])) (Collector.ApiOk (Some []))
    (fun _ => Collector.ApiOk None).

(** A file system holding only the app's env file, with content "OLD". *)
Definition fs_with_app_env : EnvGen.FS :=
  fun p => if String.eqb p EnvGen.appEnvPath then Some "OLD" else None.

(** [{"question_id":"q1","selected_answers":[]}] *)
Definition empty_answers_json : Api.json :=
  Api.JObj [("question_id", Api.JStr "q1"); ("selected_answers", Api.JArr [])].
Definition empty_answers_event : Api.APIGatewayEvent :=
  Api.mkEvent "POST" "/prod/survey/submit"
    (Some (Api.BodyText "{question_id:q1,selected_answers:[]}" (Some empty_answers_json))).

(** ** Generic facts about the script monad *)

(** A computation is [framed] when it only appends to the trace, in a way
    that does not depend on what was there before. *)
Definition Frame {A} (m : M A) : Prop :=
  forall tr, m tr = (fst (m []), app tr (snd (m []))).

Lemma frame_ret {A} (a : A) : Frame (ret a).
Proof. intro tr. unfold ret. cbn. now rewrite app_nil_r. Qed.

Lemma frame_emit e : Frame (emit e).
Proof. intro tr. reflexivity. Qed.

Lemma frame_throw {A} msg : Frame (@throw A msg).
Proof. intro tr. unfold throw. cbn. now rewrite app_nil_r. Qed.

Lemma frame_early_return {A} : Frame (@early_return A).
Proof. intro tr. unfold early_return. cbn. now rewrite app_nil_r. Qed.

Lemma frame_block {A} : Frame (@block A).
Proof. intro tr. unfold block. cbn. now rewrite app_nil_r. Qed.

Lemma frame_bind {A B} (m : M A) (k : A -> M B) :
  Frame m -> (forall a, Frame (k a)) -> Frame (bind m k).
Proof.
  intros Hm Hk tr. unfold bind.
  rewrite (Hm tr). destruct (m []) as [o x] eqn:E. cbn.
  destruct o; cbn; try reflexivity.
  rewrite (Hk a (app tr x)), (Hk a x). cbn. now rewrite app_assoc.
Qed.

Lemma frame_try_catch {A} (m : M A) (h : string -> M A) :
  Frame m -> (forall e, Frame (h e)) -> Frame (try_catch m h).
Proof.
  intros Hm Hh tr. unfold try_catch.
  rewrite (Hm tr). destruct (m []) as [o x] eqn:E. cbn.
  destruct o; cbn; try reflexivity.
  rewrite (Hh msg (app tr x)), (Hh msg x). cbn. now rewrite app_assoc.
Qed.

Lemma frame_if {A} (b : bool) (m1 m2 : M A) :
  Frame m1 -> Frame m2 -> Frame (if b then m1 else m2).
Proof. now destruct b. Qed.

Create HintDb frame.
#[export] Hint Resolve frame_ret frame_emit frame_throw frame_early_return
  frame_block frame_bind frame_try_catch frame_if : frame.

Ltac framed := repeat (intros; eauto 10 with frame; match goal with
  | |- Frame (match ?x with _ => _ end) => destruct x
  | |- Frame (bind _ _) => apply frame_bind
  | |- Frame (try_catch _ _) => apply frame_try_catch
  | |- Frame (if _ then _ else _) => apply frame_if
  | |- Frame _ => progress cbv beta zeta delta [sh ensureFile installDeps ctx
        updateInventoryWithPublicIP confirmationGate vpcStrategyStep synthesize
        deployAfterGate analyzeAndConfirm beforeDeploy deploy_main delete_main
        resourceOverview displayResourceSummary]
  end).

Lemma frame_summaryCounts inv ks : Frame (summaryCounts inv ks).
Proof. induction ks as [|k ks IH]; cbn [summaryCounts]; framed. Qed.
#[export] Hint Resolve frame_summaryCounts : frame.

Lemma frame_synthLoop ok i fuel : Frame (synthLoop ok i fuel).
Proof.
  revert i. induction fuel as [|fuel IH]; intro i; cbn [synthLoop]; framed.
Qed.
#[export] Hint Resolve frame_synthLoop : frame.

Lemma frame_deployAfterGate env : Frame (deployAfterGate env).
Proof. framed. Qed.

Lemma frame_beforeDeploy env : Frame (beforeDeploy env).
Proof. framed. Qed.

Lemma frame_delete_main env : Frame (delete_main env).
Proof. framed. Qed.

Lemma resourceOverview_run o tr :
  resourceOverview o tr =
    (if summary_readable o then Normal tt else Thrown summary_error, tr).
Proof.
  destruct o as [inv|]; [|reflexivity].
  unfold resourceOverview, displayResourceSummary, summary_readable.
  induction summary_members as [|k ks IH]; [reflexivity|].
  cbn [summaryCounts forallb]. destruct (inv_member inv k); [exact IH|reflexivity].
Qed.

(** ** Decomposition of a deploy run *)

Definition count_ev (p : event -> bool) (tr : list event) : nat := length (filter p tr).

Definition is_deploy (e : event) : bool := match e with EvDeploy => true | _ => false end.
Definition is_synth (e : event) : bool := match e with EvSynth _ => true | _ => false end.
Definition is_destroy (e : event) : bool := match e with EvDestroy => true | _ => false end.

(** Events [beforeDeploy] can produce: no command that builds or changes
    infrastructure. *)
Definition pre_event (e : event) : bool :=
  match e with
  | EvCheckResources | EvIpRequest | EvWriteInventoryIP _ | EvPromptConfirm => true
  | _ => false
  end.

Definition is_thrown (o : outcome unit) : bool :=
  match o with Thrown _ => true | _ => false end.

Lemma deploy_main_split env :
  run (deploy_main env) =
  match beforeDeploy env [] with
  | (Normal _, x) => (fst (deployAfterGate env []), app x (snd (deployAfterGate env [])))
  | (Returned, x) => (Returned, x)
  | (Thrown m, x) => (Thrown m, x)
  | (Blocked, x) => (Blocked, x)
  end.
Proof.
  unfold run, deploy_main, bind.
  destruct (beforeDeploy env []) as [o x]. destruct o; try reflexivity.
  apply frame_deployAfterGate.
Qed.

Ltac case_bash :=
  repeat (cbn in *; match goal with
  | |- context [if ?b then _ else _] => let E := fresh "E" in destruct b eqn:E
  | |- context [match ?x with _ => _ end] =>
      let E := fresh "E" in destruct x eqn:E
  end).

Lemma beforeDeploy_events env : forallb pre_event (snd (beforeDeploy env [])) = true.
Proof.
  unfold beforeDeploy, analyzeAndConfirm, updateInventoryWithPublicIP,
    confirmationGate, ensureFile, sh.
  case_bash; reflexivity.
Qed.

Lemma synthLoop_spec ok tr :
  synthLoop ok 1 synthAttempts tr =
  if ok 1 then (Normal true, app tr [EvSynth 1])
  else if ok 2 then (Normal true, app tr [EvSynth 1; EvSleep 5000; EvSynth 2])
  else if ok 3 then
    (Normal true, app tr [EvSynth 1; EvSleep 5000; EvSynth 2; EvSleep 5000; EvSynth 3])
  else (Thrown "cdk synth failed",
        app tr [EvSynth 1; EvSleep 5000; EvSynth 2; EvSleep 5000; EvSynth 3]).
Proof.
  rewrite (frame_synthLoop ok 1 synthAttempts tr).
  destruct (ok 1) eqn:E1; [cbn; now rewrite E1|].
  destruct (ok 2) eqn:E2; [cbn; now rewrite E1, E2|].
  destruct (ok 3) eqn:E3; cbn; now rewrite E1, E2, ?E3.
Qed.

Lemma deployAfterGate_props env :
  let o := fst (deployAfterGate env []) in
  let x := snd (deployAfterGate env []) in
  count_ev is_deploy x <= 1 /\ count_ev is_synth x <= 3 /\
  (forall ms, In (EvSleep ms) x -> ms = 5000%Z) /\
  (In EvDeploy x -> de_deploy_ok env = false -> is_thrown o = true) /\
  (de_synth_ok env 1 = false -> de_synth_ok env 2 = false -> de_synth_ok env 3 = false ->
     ~ In EvDeploy x /\ is_thrown o = true).
Proof.
  unfold deployAfterGate, vpcStrategyStep, ctx, installDeps, synthesize, sh, try_catch, bind.
  case_bash; cbn; repeat split; intros; try lia; try discriminate;
    try (unfold not; intros);
    repeat match goal with
    | H : _ \/ _ |- _ => destruct H
    | H : False |- _ => destruct H
    | H : EvSleep _ = EvSleep _ |- _ => injection H as <-
    | H : _ = _ |- _ => discriminate H
    end; auto.
Qed.

Lemma count_ev_app p x y : count_ev p (app x y) = count_ev p x + count_ev p y.
Proof. unfold count_ev. now rewrite filter_app, length_app. Qed.

Lemma count_ev_zero p x : (forall e, In e x -> p e = false) -> count_ev p x = 0.
Proof.
  intro H. unfold count_ev. induction x as [|a x IH]; cbn; auto.
  rewrite (H a (or_introl eq_refl)). apply IH. intros e He. apply H. now right.
Qed.

Lemma pre_events_in env e :
  In e (snd (beforeDeploy env [])) -> pre_event e = true.
Proof.
  intro H. pose proof (beforeDeploy_events env) as B.
  rewrite forallb_forall in B. now apply B.
Qed.

(** With the preconditions met, [beforeDeploy] ends at the gate. *)
Lemma beforeDeploy_at_gate env inv ip :
  de_package_json env = true -> de_check_script env = true -> de_check_ok env = true ->
  de_inventory env = Some inv -> getCurrentPublicIP (de_ip env) = IpResolved ip ->
  let tr0 := app [EvCheckResources; EvIpRequest]
               (if de_inventory_file env then [EvWriteInventoryIP ip] else []) in
  beforeDeploy env [] =
  if allResourcesExist (existingResources inv) then (Normal tt, tr0)
  else if gate_accepts (de_confirm env) then (Normal tt, app tr0 [EvPromptConfirm])
  else (Returned, app tr0 [EvPromptConfirm]).
Proof.
  intros Hp Hs Hc Hi Hip tr0.
  unfold beforeDeploy, analyzeAndConfirm, updateInventoryWithPublicIP,
    confirmationGate, ensureFile, sh.
  rewrite Hp, Hs, Hc, Hi, Hip. unfold tr0.
  destruct (de_inventory_file env), (allResourcesExist (existingResources inv)),
    (gate_accepts (de_confirm env)); reflexivity.
Qed.

Lemma ip_run_timeout pre d ms rest :
  (ip_timeout_ms <= ms)%Z ->
  ip_run d 0 (app (map IpData pre) (IpIdle ms :: rest)) = IpRejected IpErrTimeout.
Proof.
  intro H. revert d. induction pre as [|c pre IH]; intro d; cbn.
  - apply Z.leb_le in H. now rewrite H.
  - apply IH.
Qed.

Lemma beforeDeploy_ip_failed env :
  ip_failed (getCurrentPublicIP (de_ip env)) ->
  is_thrown (fst (beforeDeploy env [])) = true.
Proof.
  intro H. unfold beforeDeploy, analyzeAndConfirm, updateInventoryWithPublicIP, ensureFile, sh.
  destruct (getCurrentPublicIP (de_ip env)) eqn:E; cbn in H; try contradiction.
  destruct (de_package_json env), (de_check_script env), (de_check_ok env),
    (de_inventory env); reflexivity.
Qed.

(** ** Claims about deploy-infra.ts *)

(** C1 (counterexample): the gate trims the answer before comparing, so
    " yes " is accepted and the run deploys, although it is not an exact
    case-insensitive match of "YES". *)
Lemma deploy_gate_accepts_padded_yes :
  js_toUpperCase " yes " <> "YES" /\
  gate_accepts " yes " = true /\
  In EvDeploy (snd (run (deploy_main (sample_env inv_no_public " yes " "NEW")))).
Proof.
  split; [discriminate|]. split; [reflexivity|].
  vm_compute. tauto.
Qed.

(** C1 (amended): when the gap analysis finds something missing and the run
    reaches the gate, the run continues exactly when the answer, trimmed of
    surrounding white space and upper-cased, is "YES" (so "", "Yes please"
    and "YESX" are declines); a decline returns cleanly (exit status 0)
    after the prompt, with no synthesis and no cloud-changing command. *)
Theorem deploy_gate_trimmed_token env inv ip
  (Hpkg : de_package_json env = true) (Hscript : de_check_script env = true)
  (Hcheck : de_check_ok env = true) (Hinv : de_inventory env = Some inv)
  (Hip : getCurrentPublicIP (de_ip env) = IpResolved ip)
  (Hmissing : allResourcesExist (existingResources inv) = false) :
  (gate_accepts (de_confirm env) = true <->
     js_toUpperCase (js_trim (de_confirm env)) = "YES") /\
  gate_accepts "" = false /\ gate_accepts "Yes please" = false /\
  gate_accepts "YESX" = false /\ gate_accepts "NO" = false /\
  gate_accepts "yes" = true /\
  (gate_accepts (de_confirm env) = false ->
     fst (run (deploy_main env)) = Returned /\
     exit_code (fst (run (deploy_main env))) = Some 0 /\
     In EvPromptConfirm (snd (run (deploy_main env))) /\
     forallb (fun e => negb (is_synth e || cloud_mutating e))
       (snd (run (deploy_main env))) = true) /\
  (gate_accepts (de_confirm env) = true ->
     exists tr, In EvPromptConfirm tr /\ run (deploy_main env) = deployAfterGate env tr).
Proof.
  pose proof (beforeDeploy_at_gate env inv ip Hpkg Hscript Hcheck Hinv Hip) as B.
  cbv zeta in B. rewrite Hmissing in B.
  split; [unfold gate_accepts; apply String.eqb_eq|].
  do 5 (split; [reflexivity|]).
  split; intro Hg; rewrite Hg in B.
  - rewrite deploy_main_split, B.
    destruct (de_inventory_file env); cbn; repeat split; tauto.
  - eexists. split; [| unfold run, deploy_main, bind; rewrite B; reflexivity].
    apply in_or_app. right. now left.
Qed.

Lemma deploy_gate_trimmed_token_witness :
  fst (run (deploy_main (sample_env inv_no_public "no" "NEW"))) = Returned.
Proof.
  destruct (deploy_gate_trimmed_token (sample_env inv_no_public "no" "NEW") inv_no_public
              "203.0.113.7" eq_refl eq_refl eq_refl eq_refl eq_refl eq_refl)
    as (_ & _ & _ & _ & _ & _ & Hdecline & _).
  exact (proj1 (Hdecline eq_refl)).
Defined.

(** C3: synthesis is attempted at most [synthAttempts = 3] times with a
    fixed 5000 ms sleep between consecutive attempts (the trace of the loop
    for each pattern of failures is given in full); when synthesis is
    reached and all three attempts fail, the run ends with exit status 1
    and no deployment; the deploy command is issued at most once per run,
    and its failure is fatal. *)
Theorem deploy_synth_retry_single_deploy (env : DeployEnv) :
  synthAttempts = 3 /\ synthRetryDelayMs = 5000%Z /\
  (forall ok tr, synthLoop ok 1 synthAttempts tr =
     if ok 1 then (Normal true, app tr [EvSynth 1])
     else if ok 2 then (Normal true, app tr [EvSynth 1; EvSleep 5000; EvSynth 2])
     else if ok 3 then
       (Normal true, app tr [EvSynth 1; EvSleep 5000; EvSynth 2; EvSleep 5000; EvSynth 3])
     else (Thrown "cdk synth failed",
           app tr [EvSynth 1; EvSleep 5000; EvSynth 2; EvSleep 5000; EvSynth 3])) /\
  count_ev is_synth (snd (run (deploy_main env))) <= 3 /\
  (forall ms, In (EvSleep ms) (snd (run (deploy_main env))) -> ms = synthRetryDelayMs) /\
  count_ev is_deploy (snd (run (deploy_main env))) <= 1 /\
  (de_synth_ok env 1 = false -> de_synth_ok env 2 = false -> de_synth_ok env 3 = false ->
     ~ In EvDeploy (snd (run (deploy_main env))) /\
     (In (EvSynth 1) (snd (run (deploy_main env))) ->
      exit_code (fst (run (deploy_main env))) = Some 1)) /\
  (In EvDeploy (snd (run (deploy_main env))) -> de_deploy_ok env = false ->
     exit_code (fst (run (deploy_main env))) = Some 1).
Proof.
  split; [reflexivity|]. split; [reflexivity|]. split; [apply synthLoop_spec|].
  destruct (deployAfterGate_props env) as (Hd & Hs & Hsl & Hfail & Hsyn).
  pose proof (pre_events_in env) as P.
  rewrite deploy_main_split.
  destruct (beforeDeploy env []) as [o x] eqn:B; cbn [fst snd] in *.
  assert (Cd : count_ev is_deploy x = 0)
    by (apply count_ev_zero; intros e He; specialize (P e He); now destruct e).
  assert (Cs : count_ev is_synth x = 0)
    by (apply count_ev_zero; intros e He; specialize (P e He); now destruct e).
  assert (Nd : ~ In EvDeploy x) by (intro H; specialize (P _ H); discriminate).
  assert (Nsl : forall ms, ~ In (EvSleep ms) x) by (intros ms H; specialize (P _ H); discriminate).
  assert (Nsy : ~ In (EvSynth 1) x) by (intro H; specialize (P _ H); discriminate).
  destruct o; cbn [fst snd].
  - rewrite !count_ev_app, Cd, Cs. cbn [Nat.add].
    split; [exact Hs|]. split.
    { intros ms H. apply in_app_or in H as [H|H]; [now apply Nsl in H|]. now apply Hsl. }
    split; [exact Hd|]. split.
    + intros H1 H2 H3. destruct (Hsyn H1 H2 H3) as [N T]. split.
      * intro H. apply in_app_or in H as [H|H]; tauto.
      * intros _. now destruct (fst (deployAfterGate env [])).
    + intros H Hko. apply in_app_or in H as [H|H]; [tauto|].
      specialize (Hfail H Hko). now destruct (fst (deployAfterGate env [])).
  - rewrite Cs, Cd. repeat split; try lia; intros; try tauto; now apply Nsl in H.
  - rewrite Cs, Cd. repeat split; try lia; intros; try tauto; now apply Nsl in H.
  - rewrite Cs, Cd. repeat split; try lia; intros; try tauto; now apply Nsl in H.
Qed.

(** C8: the public-IP request is rejected once the socket has been idle for
    [ip_timeout_ms] = 10000 ms; whenever the lookup is rejected (time-out,
    HTTP error, network error) the run ends with exit status 1 and has run
    neither synthesis nor any cloud-changing command. *)
Theorem deploy_ip_lookup_precondition (env : DeployEnv)
  (Hfail : ip_failed (getCurrentPublicIP (de_ip env))) :
  ip_timeout_ms = 10000%Z /\
  (forall pre ms rest, (ip_timeout_ms <= ms)%Z ->
     getCurrentPublicIP (app (map IpData pre) (IpIdle ms :: rest)) = IpRejected IpErrTimeout) /\
  exit_code (fst (run (deploy_main env))) = Some 1 /\
  forallb (fun e => negb (is_synth e || cloud_mutating e)) (snd (run (deploy_main env))) = true.
Proof.
  split; [reflexivity|]. split; [intros; now apply ip_run_timeout|].
  pose proof (beforeDeploy_ip_failed env Hfail) as T.
  pose proof (pre_events_in env) as P.
  rewrite deploy_main_split.
  destruct (beforeDeploy env []) as [o x]; cbn [fst snd] in *.
  destruct o; try discriminate T. split; [reflexivity|].
  apply forallb_forall. intros e He. specialize (P e He). now destruct e.
Qed.

Lemma deploy_ip_lookup_precondition_witness :
  exit_code (fst (run (deploy_main
    (mkDeployEnv true true true (Some inv_complete) [IpIdle 10000%Z] true "YES" "NEW" ""
       (fun _ => true) true true true (fun _ => true) true true)))) = Some 1.
Proof.
  exact (proj1 (proj2 (proj2 (deploy_ip_lookup_precondition
    (mkDeployEnv true true true (Some inv_complete) [IpIdle 10000%Z] true "YES" "NEW" ""
       (fun _ => true) true true true (fun _ => true) true true) I)))).
Defined.

(** C9 (counterexample): an operator who intends to reuse an existing VPC
    ("EXISTING") but whose inventory has no subnet classified as public is
    stopped at the confirmation gate: declining there ends the run before
    the VPC strategy prompt and before any deployment. *)
Lemma reuse_missing_public_subnet_forces_gate :
  askVPCPreference "EXISTING" = VpcExisting /\
  missingResources (existingResources inv_no_public) = ["publicSubnet"] /\
  run (deploy_main (sample_env inv_no_public "NO" "EXISTING")) =
    (Returned, [EvCheckResources; EvIpRequest; EvWriteInventoryIP "203.0.113.7";
                EvPromptConfirm]).
Proof. split; [reflexivity|]. split; vm_compute; reflexivity. Qed.

(** C9 (amended): the public- and private-subnet checks count toward the
    all-resources-present decision in every run: the VPC strategy is asked
    only after the gate.  If either is unmet, the run goes through the
    confirmation gate, and it reaches the VPC strategy prompt (and hence
    deployment) only if the operator confirms. *)
Theorem subnet_checks_gate_every_run env inv ip
  (Hpkg : de_package_json env = true) (Hscript : de_check_script env = true)
  (Hcheck : de_check_ok env = true) (Hinv : de_inventory env = Some inv)
  (Hip : getCurrentPublicIP (de_ip env) = IpResolved ip)
  (Hunmet : nonempty (filter is_public_subnet (subnets inv)) = false \/
            nonempty (filter is_private_subnet (subnets inv)) = false) :
  allResourcesExist (existingResources inv) = false /\
  In EvPromptConfirm (snd (run (deploy_main env))) /\
  (In EvPromptVpc (snd (run (deploy_main env))) -> gate_accepts (de_confirm env) = true).
Proof.
  assert (Hall : allResourcesExist (existingResources inv) = false).
  { unfold allResourcesExist, existingResources. cbn [forallb snd].
    destruct Hunmet as [H|H]; rewrite H; now rewrite ?andb_false_r. }
  pose proof (beforeDeploy_at_gate env inv ip Hpkg Hscript Hcheck Hinv Hip) as B.
  cbv zeta in B. rewrite Hall in B.
  split; [exact Hall|].
  rewrite deploy_main_split, B.
  destruct (gate_accepts (de_confirm env)), (de_inventory_file env);
    cbn [fst snd app]; split; intros; try reflexivity;
    rewrite ?in_app_iff in *; cbn in *; intuition discriminate.
Qed.

Lemma subnet_checks_gate_every_run_witness :
  In EvPromptConfirm (snd (run (deploy_main (sample_env inv_no_public "NO" "EXISTING")))).
Proof.
  exact (proj1 (proj2 (subnet_checks_gate_every_run
    (sample_env inv_no_public "NO" "EXISTING") inv_no_public "203.0.113.7"
    eq_refl eq_refl eq_refl eq_refl eq_refl (or_introl eq_refl)))).
Defined.

(** C10: at the VPC strategy prompt, an answer whose trimmed, upper-cased
    form is neither "NEW" nor "EXISTING" selects the new-VPC strategy: the
    whole run is the same as with the answer "NEW", and the strategy step
    itself always completes normally. *)
Theorem vpc_prompt_defaults_to_new (env : DeployEnv)
  (Hnew : String.eqb (js_toUpperCase (js_trim (de_vpc_choice env))) "NEW" = false)
  (Hexisting : String.eqb (js_toUpperCase (js_trim (de_vpc_choice env))) "EXISTING" = false) :
  askVPCPreference (de_vpc_choice env) = VpcNew /\
  run (deploy_main env) = run (deploy_main (with_vpc_choice env "NEW")) /\
  (forall tr, fst (vpcStrategyStep env tr) = Normal tt).
Proof.
  assert (Hask : askVPCPreference (de_vpc_choice env) = VpcNew).
  { unfold askVPCPreference. cbv zeta. now rewrite Hnew, Hexisting. }
  split; [exact Hask|]. split.
  - assert (E : deployAfterGate env = deployAfterGate (with_vpc_choice env "NEW")).
    { unfold deployAfterGate, vpcStrategyStep. rewrite Hask. reflexivity. }
    unfold run, deploy_main. rewrite <- E. reflexivity.
  - intro tr. unfold vpcStrategyStep, try_catch, ctx, sh, bind. rewrite Hask. cbn.
    destruct (de_context_ok env "npx cdk context --remove vpcStrategy"),
      (de_context_ok env "npx cdk context --remove existingVpcId"); reflexivity.
Qed.

Lemma vpc_prompt_defaults_to_new_witness :
  run (deploy_main (sample_env inv_complete "" " maybe ")) =
  run (deploy_main (with_vpc_choice (sample_env inv_complete "" " maybe ") "NEW")).
Proof.
  exact (proj1 (proj2 (vpc_prompt_defaults_to_new
    (sample_env inv_complete "" " maybe ") eq_refl eq_refl))).
Defined.

(** ** Claims about delete-infra.ts *)




(** ** Claims about checkawsresources.ts *)

Module CollectorFacts.
Import Collector.

(** Each listing reads only its own call and the one-resource lookups, so
    a fault injected into another listing leaves it unchanged. *)
Lemma getVPCs_fail k msg c :
  getVPCs (fail_listing k msg c) = match k with KVpcs => ([], [LogError KVpcs msg]) | _ => getVPCs c end.
Proof. destruct k; reflexivity. Qed.

Lemma getSubnets_fail k msg c :
  getSubnets (fail_listing k msg c) = match k with KSubnets => ([], [LogError KSubnets msg]) | _ => getSubnets c end.
Proof. destruct k; reflexivity. Qed.

Lemma getRouteTables_fail k msg c :
  getRouteTables (fail_listing k msg c) = match k with KRouteTables => ([], [LogError KRouteTables msg]) | _ => getRouteTables c end.
Proof. destruct k; reflexivity. Qed.

Lemma getNetworkAcls_fail k msg c :
  getNetworkAcls (fail_listing k msg c) = match k with KNetworkAcls => ([], [LogError KNetworkAcls msg]) | _ => getNetworkAcls c end.
Proof. destruct k; reflexivity. Qed.

Lemma getNatGateways_fail k msg c :
  getNatGateways (fail_listing k msg c) = match k with KNatGateways => ([], [LogError KNatGateways msg]) | _ => getNatGateways c end.
Proof. destruct k; reflexivity. Qed.

Lemma getEC2Instances_fail k msg c :
  getEC2Instances (fail_listing k msg c) = match k with KEc2Instances => ([], [LogError KEc2Instances msg]) | _ => getEC2Instances c end.
Proof. destruct k; reflexivity. Qed.

Lemma getRDSInstances_fail k msg c :
  getRDSInstances (fail_listing k msg c) = match k with KRdsInstances => ([], [LogError KRdsInstances msg]) | _ => getRDSInstances c end.
Proof. destruct k; reflexivity. Qed.

Lemma getS3Buckets_fail k msg c :
  getS3Buckets (fail_listing k msg c) = match k with KS3Buckets => ([], [LogError KS3Buckets msg]) | _ => getS3Buckets c end.
Proof. destruct k; reflexivity. Qed.

End CollectorFacts.

(** C4: when the listing call of one kind rejects, the collector logs the
    error and returns an empty list for that kind, and every other list of
    the snapshot is exactly the one collected without the failure; the
    collection itself always completes. *)
Theorem collector_listing_failure_isolated (k : Collector.kind) (msg : string)
  (c : Collector.Cloud) :
  fst (Collector.collectInventory (Collector.fail_listing k msg c)) =
    Collector.clear_kind k (fst (Collector.collectInventory c)) /\
  In (Collector.LogError k msg)
     (snd (Collector.collectInventory (Collector.fail_listing k msg c))).
Proof.
  unfold Collector.collectInventory.
  rewrite CollectorFacts.getVPCs_fail, CollectorFacts.getSubnets_fail,
    CollectorFacts.getRouteTables_fail, CollectorFacts.getNetworkAcls_fail,
    CollectorFacts.getNatGateways_fail, CollectorFacts.getEC2Instances_fail,
    CollectorFacts.getRDSInstances_fail, CollectorFacts.getS3Buckets_fail.
  destruct (Collector.getVPCs c), (Collector.getSubnets c), (Collector.getRouteTables c),
    (Collector.getNetworkAcls c), (Collector.getNatGateways c),
    (Collector.getEC2Instances c), (Collector.getRDSInstances c), (Collector.getS3Buckets c).
  destruct k; cbn; split; try reflexivity; rewrite ?in_app_iff; cbn; tauto.
Qed.

(** C7 (counterexample): when the one-hop lookup of the owning VPC is
    rejected (here throttled), an untagged subnet of a VPC that matches the
    marker is left out, although that VPC itself is in the inventory; with
    the lookup succeeding the same subnet is included. *)
Lemma parent_lookup_failure_drops_child :
  In c7_vpc (Collector.s_vpcs (fst (Collector.collectInventory (c7_cloud false)))) /\
  Collector.SubnetVpcId c7_subnet = Collector.VpcId c7_vpc /\
  Collector.selfMatches (Collector.SubnetTags c7_subnet) = false /\
  Collector.s_subnets (fst (Collector.collectInventory (c7_cloud false))) = [] /\
  Collector.s_subnets (fst (Collector.collectInventory (c7_cloud true))) = [c7_subnet].
Proof. vm_compute. repeat split; try reflexivity. left. reflexivity. Qed.

(** C7 (amended): for subnets, route tables, network ACLs, NAT gateways
    and instances, a listed resource is kept when it matches the marker
    itself, or else when the one-hop lookup of its owning VPC (for NAT
    gateways and instances, of its subnet and then that subnet's VPC)
    succeeds and the first VPC returned matches by name or tag.  A missing
    or empty parent id, an empty lookup result or a rejected lookup counts
    as no parent match: the resource is then kept only if it matches
    itself. *)
Theorem child_inclusion_one_hop (c : Collector.Cloud) :
  (forall s, Collector.keepSubnet c s =
     Collector.selfMatches (Collector.SubnetTags s) || Collector.vpcMatches c (Collector.SubnetVpcId s)) /\
  (forall rt, Collector.keepRouteTable c rt =
     Collector.selfMatches (Collector.RtTags rt) || Collector.vpcMatches c (Collector.RtVpcId rt)) /\
  (forall a, Collector.keepNetworkAcl c a =
     Collector.selfMatches (Collector.AclTags a) || Collector.vpcMatches c (Collector.AclVpcId a)) /\
  (forall n, Collector.keepNatGateway c n =
     Collector.selfMatches (Collector.NatTags n) || Collector.subnetVpcMatches c (Collector.NatSubnetId n)) /\
  (forall i, Collector.keepInstance c i =
     Collector.selfMatches (Collector.InstTags i) || Collector.subnetVpcMatches c (Collector.InstSubnetId i)) /\
  (forall id vpc rest, id <> "" ->
     Collector.describeVpcs_byId c id = Collector.ApiOk (Some (vpc :: rest)) ->
     Collector.vpcMatches c (Some id) = Collector.selfMatches (Collector.VpcTags vpc)) /\
  (forall id s rest, id <> "" ->
     Collector.describeSubnets_byId c id = Collector.ApiOk (Some (s :: rest)) ->
     Collector.subnetVpcMatches c (Some id) = Collector.vpcMatches c (Collector.SubnetVpcId s)) /\
  (forall o, Collector.truthy_id o = None ->
     Collector.vpcMatches c o = false /\ Collector.subnetVpcMatches c o = false) /\
  (forall id msg, Collector.describeVpcs_byId c id = Collector.ApiErr msg ->
     Collector.vpcMatches c (Some id) = false) /\
  (forall id msg, Collector.describeSubnets_byId c id = Collector.ApiErr msg ->
     Collector.subnetVpcMatches c (Some id) = false) /\
  (forall l s, Collector.describeSubnets c = Collector.ApiOk l ->
     In s (fst (Collector.getSubnets c)) <->
     In s (Collector.or_empty l) /\ Collector.keepSubnet c s = true) /\
  (forall l rt, Collector.describeRouteTables c = Collector.ApiOk l ->
     In rt (fst (Collector.getRouteTables c)) <->
     In rt (Collector.or_empty l) /\ Collector.keepRouteTable c rt = true) /\
  (forall l a, Collector.describeNetworkAcls c = Collector.ApiOk l ->
     In a (fst (Collector.getNetworkAcls c)) <->
     In a (Collector.or_empty l) /\ Collector.keepNetworkAcl c a = true) /\
  (forall l n, Collector.describeNatGateways c = Collector.ApiOk l ->
     In n (fst (Collector.getNatGateways c)) <->
     In n (Collector.or_empty l) /\ Collector.keepNatGateway c n = true) /\
  (forall l i, Collector.describeInstances c = Collector.ApiOk l ->
     In i (fst (Collector.getEC2Instances c)) <->
     In i (flat_map (fun r => Collector.or_empty (Collector.Instances r)) (Collector.or_empty l)) /\
     Collector.keepInstance c i = true).
Proof.
  unfold Collector.keepSubnet, Collector.keepRouteTable, Collector.keepNetworkAcl,
    Collector.keepNatGateway, Collector.keepInstance.
  repeat match goal with |- _ /\ _ => split end.
  all: try match goal with
    | |- forall l x, _ -> In x (fst _) <-> _ =>
        intros l x H; unfold Collector.getSubnets, Collector.getRouteTables,
          Collector.getNetworkAcls, Collector.getNatGateways, Collector.getEC2Instances;
        rewrite H; cbn [Collector.listing fst]; rewrite filter_In; tauto
    end.
  - intros; reflexivity.
  - intros; reflexivity.
  - intros; reflexivity.
  - intros; reflexivity.
  - intros; reflexivity.
  - intros id vpc rest Hid H. unfold Collector.vpcMatches, Collector.truthy_id.
    destruct id; [congruence|]. now rewrite H.
  - intros id s rest Hid H. unfold Collector.subnetVpcMatches, Collector.truthy_id.
    destruct id; [congruence|]. now rewrite H.
  - intros o H. unfold Collector.vpcMatches, Collector.subnetVpcMatches. now rewrite H.
  - intros id msg H. unfold Collector.vpcMatches, Collector.truthy_id.
    destruct id; [reflexivity|]. now rewrite H.
  - intros id msg H. unfold Collector.subnetVpcMatches, Collector.truthy_id.
    destruct id; [reflexivity|]. now rewrite H.
Qed.

(** ** Claims about the environment-file generators *)

Lemma saveEnvFile_backup fs envPath backupPath content old :
  envPath <> backupPath -> fs envPath = Some old ->
  exists fs', EnvGen.saveEnvFile fs envPath backupPath content = Some fs' /\
    fs' backupPath = Some old /\ fs' envPath = Some content /\
    (forall q, q <> envPath -> q <> backupPath -> fs' q = fs q).
Proof.
  intros Hne Hold. unfold EnvGen.saveEnvFile, EnvGen.existsSync, EnvGen.copyFileSync.
  rewrite Hold. eexists. split; [reflexivity|].
  unfold EnvGen.writeFileSync. rewrite String.eqb_refl.
  assert (E : String.eqb backupPath envPath = false)
    by (apply String.eqb_neq; congruence).
  rewrite E, String.eqb_refl. split; [reflexivity|]. split; [reflexivity|].
  intros q H1 H2. apply String.eqb_neq in H1, H2. now rewrite H1, H2.
Qed.

(** C5: for both generators (generate-env.ts writing the app's
    [.env.local], generate-lambda-env.ts writing the lambdas' [.env]), if
    the target file holds [C] before the run and content [N] is generated,
    the run ends with the [.backup] sibling holding [C], the target holding
    [N], and every other file unchanged. *)
Theorem env_generator_backs_up (fs : EnvGen.FS) (envPath backupPath C N : string)
  (Hgen : (envPath, backupPath) = (EnvGen.appEnvPath, EnvGen.appBackupPath) \/
          (envPath, backupPath) = (EnvGen.lambdaEnvPath, EnvGen.lambdaBackupPath))
  (Hold : fs envPath = Some C) :
  exists fs', EnvGen.generatorRun fs envPath backupPath (Some N) = Some fs' /\
    fs' backupPath = Some C /\ fs' envPath = Some N /\
    (forall q, q <> envPath -> q <> backupPath -> fs' q = fs q).
Proof.
  apply saveEnvFile_backup; [|exact Hold].
  destruct Hgen as [E|E]; injection E as -> ->; discriminate.
Qed.

Lemma env_generator_backs_up_witness :
  exists fs', EnvGen.generatorRun fs_with_app_env EnvGen.appEnvPath EnvGen.appBackupPath
                (Some "NEXT_PUBLIC_API_URL=x") = Some fs' /\
    fs' EnvGen.appBackupPath = Some "OLD" /\ fs' EnvGen.appEnvPath = Some "NEXT_PUBLIC_API_URL=x" /\
    (forall q, q <> EnvGen.appEnvPath -> q <> EnvGen.appBackupPath -> fs' q = fs_with_app_env q).
Proof.
  exact (env_generator_backs_up fs_with_app_env EnvGen.appEnvPath EnvGen.appBackupPath
           "OLD" "NEXT_PUBLIC_API_URL=x" (or_introl eq_refl) eq_refl).
Defined.

(** ** Claims about the survey API *)

(** C6: a POST to the submit endpoint whose body carries a question id
    and an empty [selected_answers] array is acknowledged by the Lambda
    handler with status 200, whereas the sibling Next.js route of the
    frontend answers the same body with 400.  Missing fields are rejected
    (status 500). *)
Theorem submit_accepts_empty_answers :
  Api.is_ack (Api.handler true "2026-01-01T00:00:00.000Z" Api.JNull empty_answers_event) = true /\
  Api.statusCode (Api.handler true "2026-01-01T00:00:00.000Z" Api.JNull empty_answers_event) = 200%Z /\
  Api.route_rejects empty_answers_json = true /\
  Api.statusCode (Api.handler true "2026-01-01T00:00:00.000Z" Api.JNull
    (Api.mkEvent "POST" "/prod/survey/submit"
       (Some (Api.BodyText "{question_id:q1}" (Some (Api.JObj [("question_id", Api.JStr "q1")]))))))
    = 500%Z /\
  Api.statusCode (Api.handler true "2026-01-01T00:00:00.000Z" Api.JNull
    (Api.mkEvent "POST" "/prod/survey/submit"
       (Some (Api.BodyText "{selected_answers:[a1]}"
          (Some (Api.JObj [("selected_answers", Api.JArr [Api.JStr "a1"])]))))))
    = 500%Z.
Proof. vm_compute. repeat split. Qed.

(** * Further properties of the scripts *)

(** ** String facts *)

Lemma str_app_assoc (a b c : string) : (a ++ b) ++ c = a ++ (b ++ c).
Proof. induction a as [|x a IH]; cbn; [reflexivity | now rewrite IH]. Qed.

Lemma str_app_nil_r (a : string) : a ++ EmptyString = a.
Proof. induction a as [|x a IH]; cbn; [reflexivity | now rewrite IH]. Qed.

Lemma str_prefixb_app (p s : string) : str_prefixb p (p ++ s) = true.
Proof. induction p as [|c p IH]; cbn; [reflexivity | now rewrite Ascii.eqb_refl, IH]. Qed.

Lemma js_includes_prefix (s t : string) : str_prefixb t s = true -> js_includes s t = true.
Proof. intro H. destruct s; cbn; rewrite H; reflexivity. Qed.

Lemma js_includes_app_l (p s t : string) :
  js_includes s t = true -> js_includes (p ++ s) t = true.
Proof.
  intro H. induction p as [|c p IH]; cbn [append]; [exact H|].
  cbn [js_includes]. rewrite IH. apply Bool.orb_true_r.
Qed.

Module EnvContentFacts.
Import EnvContent.

(** A line of a template literal is a whole line of the text: it appears
    between two line feeds. *)
Lemma unlines_line (a : string) (rest : list string) (l : string) :
  In l rest -> js_includes (unlines (a :: rest)) (newline ++ l ++ newline) = true.
Proof.
  revert a. induction rest as [|b r IH]; intros a H; [destruct H|].
  cbn [unlines]. apply js_includes_app_l.
  destruct H as [<-|H].
  - apply js_includes_prefix.
    replace (newline ++ b ++ newline ++ unlines r)
      with ((newline ++ b ++ newline) ++ unlines r) by (now rewrite !str_app_assoc).
    apply str_prefixb_app.
  - apply (js_includes_app_l newline). apply IH, H.
Qed.

Lemma findDbSecret_first (pre : list Secret) (s : Secret) (post : list Secret) :
  forallb (fun x => negb (js_includes (sec_Name x) "db_secret")) pre = true ->
  js_includes (sec_Name s) "db_secret" = true ->
  findDbSecret (Some (app pre (s :: post))) = Some s.
Proof.
  intros Hpre Hs. unfold findDbSecret. induction pre as [|x pre IH]; cbn in *.
  - now rewrite Hs.
  - apply andb_true_iff in Hpre as [Hx Hpre]. apply Bool.negb_true_iff in Hx.
    rewrite Hx. exact (IH Hpre).
Qed.

Lemma findDbSecret_spec (l : list Secret) (s : Secret) :
  findDbSecret (Some l) = Some s -> In s l /\ js_includes (sec_Name s) "db_secret" = true.
Proof. unfold findDbSecret. intro H. split; [eapply find_some; exact H|]. apply (find_some _ _ H). Qed.

End EnvContentFacts.

Ltac pick_line := repeat first [ left; reflexivity | right ].

(** The frontend env content: generation fails exactly when the inventory
    has no first API Gateway; otherwise the text has a whole line
    [NEXT_PUBLIC_API_URL=https://<id>.execute-api.us-east-1.amazonaws.com/<stage>],
    where a missing or empty stage name becomes [prod]. *)
Theorem generateEnvContent_api_url (inv : EnvContent.AppInventory) (now : string) :
  (EnvContent.first (EnvContent.apiGateways inv) = None <->
   EnvContent.generateEnvContent inv now =
     inl "No API Gateway found in inventory. Please run deploy-infra.ts first.") /\
  (forall gw, EnvContent.first (EnvContent.apiGateways inv) = Some gw ->
     exists content, EnvContent.generateEnvContent inv now = inr content /\
       js_includes content (EnvContent.newline ++ ("NEXT_PUBLIC_API_URL=" ++
                            EnvContent.apiUrl gw) ++ EnvContent.newline) = true) /\
  EnvContent.stageOrProd None = "prod" /\ EnvContent.stageOrProd (Some "") = "prod" /\
  (forall st, st <> "" -> EnvContent.stageOrProd (Some st) = st).
Proof.
  split; [|split; [|split; [reflexivity|split; [reflexivity|]]]].
  - unfold EnvContent.generateEnvContent.
    destruct (EnvContent.first (EnvContent.apiGateways inv)); split; intro H;
      try discriminate; reflexivity.
  - intros gw H. unfold EnvContent.generateEnvContent. rewrite H.
    eexists. split; [reflexivity|]. apply EnvContentFacts.unlines_line. pick_line.
  - intros st H. destruct st; [congruence|reflexivity].
Qed.

(** The Lambda env content: without a first RDS proxy generation fails
    (whatever the secrets); with one but no secret whose name contains
    [db_secret] it fails too; otherwise the text has the whole lines
    [PGHOST=<proxy endpoint>], [DB_SECRET_ARN=<ARN>] of the first secret
    whose name contains [db_secret], and either the API Gateway URL line
    or [# API Gateway: Not found]. *)
Theorem generateLambdaEnvContent_db (inv : EnvContent.LambdaInventory) (now : string) :
  (EnvContent.first (EnvContent.lam_rdsProxies inv) = None ->
   EnvContent.generateLambdaEnvContent inv now =
     inl "No RDS Proxy found in inventory. Please run deploy-infra.ts first.") /\
  (forall p, EnvContent.first (EnvContent.lam_rdsProxies inv) = Some p ->
   EnvContent.findDbSecret (EnvContent.secrets inv) = None ->
   EnvContent.generateLambdaEnvContent inv now =
     inl "No database secret found in inventory. Please run deploy-infra.ts first.") /\
  (forall p s, EnvContent.first (EnvContent.lam_rdsProxies inv) = Some p ->
   EnvContent.findDbSecret (EnvContent.secrets inv) = Some s ->
   exists content, EnvContent.generateLambdaEnvContent inv now = inr content /\
     js_includes content (EnvContent.newline ++ ("PGHOST=" ++ EnvContent.Endpoint p)
                          ++ EnvContent.newline) = true /\
     js_includes content (EnvContent.newline ++ ("DB_SECRET_ARN=" ++ EnvContent.ARN s)
                          ++ EnvContent.newline) = true /\
     js_includes content (EnvContent.newline ++
        match EnvContent.first (EnvContent.lam_apiGateways inv) with
        | Some gw => "API_GATEWAY_URL=" ++ EnvContent.apiUrl gw
        | None => "# API Gateway: Not found"
        end ++ EnvContent.newline) = true) /\
  (forall pre s post,
     forallb (fun x => negb (js_includes (EnvContent.sec_Name x) "db_secret")) pre = true ->
     js_includes (EnvContent.sec_Name s) "db_secret" = true ->
     EnvContent.findDbSecret (Some (app pre (s :: post))) = Some s) /\
  (forall l s, EnvContent.findDbSecret (Some l) = Some s ->
     In s l /\ js_includes (EnvContent.sec_Name s) "db_secret" = true).
Proof.
  unfold EnvContent.generateLambdaEnvContent.
  split; [intro H; now rewrite H|].
  split; [intros p H1 H2; now rewrite H1, H2|].
  split; [|split; [exact EnvContentFacts.findDbSecret_first | exact EnvContentFacts.findDbSecret_spec]].
  intros p s H1 H2. rewrite H1, H2. eexists. split; [reflexivity|].
  split; [|split]; apply EnvContentFacts.unlines_line;
    [pick_line | pick_line |].
  destruct (EnvContent.first (EnvContent.lam_apiGateways inv)); pick_line.
Qed.

(** The connection tests of generate-lambda-env.ts: the API Gateway test
    passes for every API Gateway in the inventory, whatever its id or stage
    (the URL it checks is built with the very substrings it looks for), and
    fails only when there is none; the RDS proxy test passes exactly when a
    first proxy exists whose endpoint contains [.rds.amazonaws.com] and
    [proxy]. *)
Theorem connection_tests_outcome (inv : EnvContent.LambdaInventory) :
  (EnvContent.success (snd (EnvContent.performConnectionTests inv)) = true <->
   EnvContent.first (EnvContent.lam_apiGateways inv) <> None) /\
  (EnvContent.success (fst (EnvContent.performConnectionTests inv)) = true <->
   exists p, EnvContent.first (EnvContent.lam_rdsProxies inv) = Some p /\
     js_includes (EnvContent.Endpoint p) ".rds.amazonaws.com" = true /\
     js_includes (EnvContent.Endpoint p) "proxy" = true).
Proof.
  unfold EnvContent.performConnectionTests. cbn [fst snd]. split.
  - destruct (EnvContent.first (EnvContent.lam_apiGateways inv)) as [gw|].
    + unfold EnvContent.testAPIGatewayAccessibility, EnvContent.apiUrl.
      assert (A : js_includes ("https://" ++ EnvContent.gw_id gw ++
                ".execute-api.us-east-1.amazonaws.com/" ++
                EnvContent.stageOrProd (EnvContent.prodStageName gw)) "execute-api." = true)
        by (apply (js_includes_app_l "https://"), js_includes_app_l; reflexivity).
      assert (B : js_includes ("https://" ++ EnvContent.gw_id gw ++
                ".execute-api.us-east-1.amazonaws.com/" ++
                EnvContent.stageOrProd (EnvContent.prodStageName gw)) ".amazonaws.com" = true)
        by (apply (js_includes_app_l "https://"), js_includes_app_l; reflexivity).
      rewrite A, B. cbn. split; [discriminate | reflexivity].
    + cbn. split; [discriminate | congruence].
  - destruct (EnvContent.first (EnvContent.lam_rdsProxies inv)) as [p|].
    + unfold EnvContent.testRDSProxyConnection.
      destruct (js_includes (EnvContent.Endpoint p) ".rds.amazonaws.com") eqn:E1,
        (js_includes (EnvContent.Endpoint p) "proxy") eqn:E2; cbn;
        split; intro H; try discriminate; try (eexists; split; [reflexivity|]; now split);
        destruct H as (q & Hq & H1 & H2); injection Hq as <-; congruence.
    + cbn. split; [discriminate|]. intros (q & Hq & _). discriminate.
Qed.


(** ** Dependency installation, synthesis and deployment *)

(** [installDeps] runs at most two installations: [npm ci] when a lock
    file exists ([npm i] otherwise), then, only if that fails, one
    [npm i] whatever the lock file; the step fails only when both fail. *)
Theorem installDeps_fallback (has_lock ok retry_ok : bool) (tr : list event) :
  installDeps has_lock ok retry_ok tr =
  (if ok || retry_ok then Normal tt else Thrown "Command failed",
   app tr (EvInstall (if has_lock then "npm ci" else "npm i")
           :: (if ok then [] else [EvInstall "npm i"]))).
Proof.
  unfold installDeps, try_catch, sh, bind, emit, ret, throw.
  destruct ok, retry_ok; cbn; try reflexivity; now rewrite <- app_assoc.
Qed.

Lemma deployAfterGate_deploy env :
  In EvDeploy (snd (deployAfterGate env [])) ->
  (de_install_ok env || de_install_retry_ok env) = true /\
  (de_synth_ok env 1 || de_synth_ok env 2 || de_synth_ok env 3) = true /\
  fst (deployAfterGate env []) =
    (if de_deploy_ok env && de_verify_ok env then Normal tt else Thrown "Command failed").
Proof.
  destruct (de_deploy_ok env) eqn:Ed, (de_verify_ok env) eqn:Ev;
  unfold deployAfterGate, vpcStrategyStep, ctx, installDeps, synthesize, sh, try_catch, bind;
  rewrite ?Ed, ?Ev; case_bash; cbn; intro H;
    repeat match goal with
    | H : _ \/ _ |- _ => destruct H
    | H : False |- _ => destruct H
    | H : _ = _ |- _ => discriminate H
    end; auto.
Qed.

(** The deployment command runs only after the dependencies were
    installed (by the first attempt or the fallback) and after a
    successful synthesis attempt, the first that succeeded among the three;
    once it has run, the exit status is 0 exactly when both the deployment
    and the final resource check succeed: a failed check after a
    successful deployment still exits with 1. *)
Theorem deploy_requires_install_and_synth (env : DeployEnv)
    (H : In EvDeploy (snd (run (deploy_main env)))) :
  (de_install_ok env || de_install_retry_ok env) = true /\
  (exists i, 1 <= i <= synthAttempts /\ de_synth_ok env i = true /\
     forall j, 1 <= j < i -> de_synth_ok env j = false) /\
  exit_code (fst (run (deploy_main env))) =
    Some (if de_deploy_ok env && de_verify_ok env then 0 else 1).
Proof.
  pose proof (pre_events_in env) as P.
  rewrite deploy_main_split in *.
  destruct (beforeDeploy env []) as [o x] eqn:B.
  destruct o; cbn [fst snd] in *;
    try (specialize (P _ H); discriminate).
  apply in_app_or in H as [H|H]; [specialize (P _ H); discriminate|].
  destruct (deployAfterGate_deploy env H) as (Hi & Hs & Ho).
  split; [exact Hi|]. split.
  - destruct (de_synth_ok env 1) eqn:E1.
    + exists 1. split; [unfold synthAttempts; lia|]. split; [exact E1|]. intros; lia.
    + destruct (de_synth_ok env 2) eqn:E2.
      * exists 2. split; [unfold synthAttempts; lia|]. split; [exact E2|].
        intros j Hj. replace j with 1 by lia. exact E1.
      * exists 3. split; [unfold synthAttempts; lia|]. split; [exact Hs|].
        intros j Hj. destruct (Nat.eq_dec j 1) as [->|]; [exact E1|].
        replace j with 2 by lia. exact E2.
  - rewrite Ho. now destruct (de_deploy_ok env && de_verify_ok env).
Qed.

Lemma deploy_requires_install_and_synth_witness :
  In EvDeploy (snd (run (deploy_main (sample_env inv_complete "" "NEW")))) /\
  exit_code (fst (run (deploy_main (sample_env inv_complete "" "NEW")))) = Some 0.
Proof.
  assert (H : In EvDeploy (snd (run (deploy_main (sample_env inv_complete "" "NEW")))))
    by (vm_compute; pick_line).
  split; [exact H|].
  destruct (deploy_requires_install_and_synth (sample_env inv_complete "" "NEW") H)
    as (_ & _ & E).
  exact E.
Defined.

(** The VPC strategy step never fails: it prompts, and for an existing
    VPC prompts for its id and sets the strategy, then the (trimmed) id
    only if setting the strategy succeeded; for a new VPC it removes the
    strategy, then the id only if the first removal succeeded.  Failures of
    [cdk context] are swallowed. *)
Theorem vpcStrategyStep_never_fails (env : DeployEnv) (tr : list event) :
  vpcStrategyStep env tr =
  (Normal tt,
   app tr (EvPromptVpc ::
     match askVPCPreference (de_vpc_choice env) with
     | VpcExisting =>
         EvPromptVpcId :: EvContext "npx cdk context --set vpcStrategy=existing" ::
         (if de_context_ok env "npx cdk context --set vpcStrategy=existing"
          then [EvContext ("npx cdk context --set existingVpcId=" ++ js_trim (de_vpc_id env))]
          else [])
     | VpcNew =>
         EvContext "npx cdk context --remove vpcStrategy" ::
         (if de_context_ok env "npx cdk context --remove vpcStrategy"
          then [EvContext "npx cdk context --remove existingVpcId"]
          else [])
     end)).
Proof.
  unfold vpcStrategyStep, ctx, sh, try_catch, bind, emit, ret, throw.
  destruct (askVPCPreference (de_vpc_choice env)).
  - destruct (de_context_ok env "npx cdk context --remove vpcStrategy");
      [destruct (de_context_ok env "npx cdk context --remove existingVpcId")|];
      cbn; now rewrite <- ?app_assoc.
  - destruct (de_context_ok env "npx cdk context --set vpcStrategy=existing");
      [destruct (de_context_ok env
          ("npx cdk context --set existingVpcId=" ++ js_trim (de_vpc_id env)))|];
      cbn; now rewrite <- ?app_assoc.
Qed.

(** ** The deletion run *)

(** Exit status and destruction of a deletion run: a missing file or a
    failed inventory check exits with 1, and so does an inventory that
    loads but lacks a member the resource summary counts; past the
    summary, a declined confirmation exits with 0 without destroying;
    otherwise [cdk destroy] runs exactly once, after
    the dependencies were installed, and the run exits with 0 exactly when
    it succeeds: the final resource check never changes the status. *)
Theorem delete_run_outcome (env : DeleteEnv) :
  exit_code (fst (run (delete_main env))) =
    Some (if dl_package_json env && dl_check_script env && dl_check_ok env
             && summary_readable (dl_inventory env) then
            if getUserConfirmation (dl_confirm env) then
              if (dl_install_ok env || dl_install_retry_ok env) && dl_destroy_ok env then 0 else 1
            else 0 else 1) /\
  count_ev is_destroy (snd (run (delete_main env))) =
    (if dl_package_json env && dl_check_script env && dl_check_ok env &&
        summary_readable (dl_inventory env) &&
        getUserConfirmation (dl_confirm env) && (dl_install_ok env || dl_install_retry_ok env)
     then 1 else 0).
Proof.
  unfold run, delete_main, installDeps, ensureFile, sh, try_catch, bind.
  destruct (dl_package_json env), (dl_check_script env), (dl_check_ok env);
    cbn -[resourceOverview]; try (split; reflexivity).
  rewrite resourceOverview_run.
  destruct (summary_readable (dl_inventory env)); cbn; [|split; reflexivity].
  case_bash; split; reflexivity.
Qed.

(** The [cdk list] step is informational: its outcome changes neither the
    outcome nor the actions of a deletion run. *)
Theorem delete_cdk_list_informational (env : DeleteEnv) (b : bool) :
  run (delete_main (with_cdk_list_ok env b)) = run (delete_main env).
Proof.
  destruct env as [pj cs ck inv cl cf lk io ir dd vo].
  unfold with_cdk_list_ok, run, delete_main, sh, try_catch, bind; cbn -[resourceOverview].
  destruct pj, cs, ck; cbn -[resourceOverview]; try reflexivity.
  rewrite !resourceOverview_run. destruct (summary_readable inv); [|reflexivity].
  cbn. now destruct b, cl.
Qed.

(** Run on the inventory file the collector writes, the deletion script
    never reaches its prompt: the resource summary finds no [rdsProxies]
    member and throws, and the run exits with 1 without destroying. *)
Theorem delete_collector_inventory_throws (env : DeleteEnv) (snap : Collector.Snapshot)
  (H : dl_inventory env = Some (collector_file snap)) :
  summary_readable (dl_inventory env) = false /\
  exit_code (fst (run (delete_main env))) = Some 1 /\
  ~ In EvPromptConfirm (snd (run (delete_main env))) /\
  ~ In EvDestroy (snd (run (delete_main env))).
Proof.
  assert (R : summary_readable (dl_inventory env) = false) by (rewrite H; reflexivity).
  split; [exact R|].
  unfold run, delete_main, ensureFile, sh, bind.
  destruct (dl_package_json env), (dl_check_script env), (dl_check_ok env);
    cbn -[resourceOverview]; try (repeat split; cbn; intuition discriminate).
  rewrite resourceOverview_run, R. cbn. repeat split; intuition discriminate.
Qed.

Lemma delete_collector_inventory_throws_witness :
  exit_code (fst (run (delete_main (mkDeleteEnv true true true
    (Some (collector_file (Collector.mkSnapshot [] [] [] [] [] [] [] []))) true
    "DELETE ALL" true true true true true)))) = Some 1.
Proof.
  exact (proj1 (proj2 (delete_collector_inventory_throws
    (mkDeleteEnv true true true
       (Some (collector_file (Collector.mkSnapshot [] [] [] [] [] [] [] []))) true
       "DELETE ALL" true true true true true)
    (Collector.mkSnapshot [] [] [] [] [] [] [] []) eq_refl))).
Defined.

(** ** The public-IP lookup *)

Lemma ip_run_pending_app d idle pre rest :
  ip_run d idle pre = IpPending ->
  (forall st, ip_run d idle (app pre (IpEnd st :: rest)) =
     if (st =? 200)%Z then IpResolved (js_trim (d ++ received pre))
     else IpRejected (IpErrHttp st)) /\
  (forall m, ip_run d idle (app pre (IpNetError m :: rest)) = IpRejected (IpErrNet m)).
Proof.
  revert d idle. induction pre as [|e pre IH]; intros d idle H.
  - cbn. rewrite str_app_nil_r. split; reflexivity.
  - destruct e as [c|ms|st0|m0]; cbn in H |- *; try discriminate.
    + rewrite <- str_app_assoc. exact (IH _ _ H).
    + destruct (ip_timeout_ms <=? idle + ms)%Z; [discriminate|]. exact (IH _ _ H).
    + destruct (st0 =? 200)%Z; discriminate.
Qed.

(** Once the lookup is still pending after a prefix of the response (no
    end, no error, and never 10 seconds of silence since the last data),
    it settles on the next end or error: an end with status 200 resolves
    to the whole received body, trimmed; any other status rejects with
    that status; a network error rejects with its message. *)
Theorem getCurrentPublicIP_settles (pre rest : list ip_event)
    (H : getCurrentPublicIP pre = IpPending) :
  (forall st, getCurrentPublicIP (app pre (IpEnd st :: rest)) =
     if (st =? 200)%Z then IpResolved (js_trim (received pre))
     else IpRejected (IpErrHttp st)) /\
  (forall m, getCurrentPublicIP (app pre (IpNetError m :: rest)) = IpRejected (IpErrNet m)).
Proof. exact (ip_run_pending_app "" 0 pre rest H). Qed.

Lemma getCurrentPublicIP_settles_witness :
  getCurrentPublicIP [IpIdle 6000%Z; IpIdle 6000%Z] = IpRejected IpErrTimeout /\
  getCurrentPublicIP [IpData " 203.0.113.7"; IpIdle 6000%Z; IpData lf; IpIdle 6000%Z]
    = IpPending /\
  getCurrentPublicIP (app [IpData " 203.0.113.7"; IpIdle 6000%Z; IpData lf; IpIdle 6000%Z]
                          [IpEnd 200%Z])
    = IpResolved "203.0.113.7".
Proof.
  split; [reflexivity|]. split; [reflexivity|].
  destruct (getCurrentPublicIP_settles
    [IpData " 203.0.113.7"; IpIdle 6000%Z; IpData lf; IpIdle 6000%Z] [] eq_refl) as [E _].
  rewrite (E 200%Z). reflexivity.
Defined.

(** ** The gap analysis *)

Lemma allResourcesExist_missing (er : list (string * bool)) :
  allResourcesExist er = true <-> missingResources er = [].
Proof.
  unfold allResourcesExist, missingResources.
  induction er as [|[k b] er IH]; cbn; [tauto|].
  destruct b; cbn; [exact IH|]. split; discriminate.
Qed.

(** Nothing is missing exactly when every checked kind exists; NAT
    gateways are not part of the analysis; and an account without an EC2
    instance, although the source calls that check informational, always
    has "ec2" reported missing and so always reaches the gate. *)
Theorem gap_analysis_props :
  (forall er, allResourcesExist er = true <-> missingResources er = []) /\
  (forall inv nats,
     existingResources
       (mkInventory (vpcs inv) (subnets inv) (routeTables inv) (networkAcls inv) nats
          (internetGateways inv) (securityGroups inv) (ec2Instances inv)
          (rdsInstances inv) (rdsProxies inv) (s3Buckets inv))
     = existingResources inv) /\
  (forall inv, ec2Instances inv = [] ->
     In "ec2" (missingResources (existingResources inv)) /\
     allResourcesExist (existingResources inv) = false).
Proof.
  split; [exact allResourcesExist_missing|]. split; [reflexivity|].
  intros inv H.
  assert (Hin : In "ec2" (missingResources (existingResources inv))).
  { unfold missingResources, existingResources. rewrite H.
    apply in_map_iff. exists ("ec2", false). split; [reflexivity|].
    apply filter_In. split; [cbn; pick_line | reflexivity]. }
  split; [exact Hin|].
  destruct (allResourcesExist (existingResources inv)) eqn:E; [|reflexivity].
  apply allResourcesExist_missing in E. rewrite E in Hin. destruct Hin.
Qed.

(** ** Case-insensitive name tests *)

Lemma ascii_lower_upper (c : ascii) : ascii_lower (ascii_upper c) = ascii_lower c.
Proof.
  destruct c as [b0 b1 b2 b3 b4 b5 b6 b7].
  destruct b0, b1, b2, b3, b4, b5, b6, b7; vm_compute; reflexivity.
Qed.

Lemma ascii_lower_lower (c : ascii) : ascii_lower (ascii_lower c) = ascii_lower c.
Proof.
  destruct c as [b0 b1 b2 b3 b4 b5 b6 b7].
  destruct b0, b1, b2, b3, b4, b5, b6, b7; vm_compute; reflexivity.
Qed.

Lemma toLower_toUpper (s : string) : js_toLowerCase (js_toUpperCase s) = js_toLowerCase s.
Proof.
  induction s as [|c s IH]; [reflexivity|].
  cbn. unfold js_toLowerCase, js_toUpperCase in IH. now rewrite ascii_lower_upper, IH.
Qed.

Lemma toLower_toLower (s : string) : js_toLowerCase (js_toLowerCase s) = js_toLowerCase s.
Proof.
  induction s as [|c s IH]; [reflexivity|].
  cbn. unfold js_toLowerCase in IH. now rewrite ascii_lower_lower, IH.
Qed.

(** The subnet classification of the gap analysis: a subnet that maps
    public IPs on launch is public and never private, whatever its tags;
    and the Name-tag tests do not depend on letter case. *)
Theorem subnet_classification (s : DSubnet) :
  (MapPublicIpOnLaunch s = Some true ->
     is_public_subnet s = true /\ is_private_subnet s = false) /\
  (forall v, re_public (Some (js_toUpperCase v)) = re_public (Some v) /\
             re_public (Some (js_toLowerCase v)) = re_public (Some v)) /\
  (forall v, re_private_isolated (Some (js_toUpperCase v)) = re_private_isolated (Some v) /\
             re_private_isolated (Some (js_toLowerCase v)) = re_private_isolated (Some v)).
Proof.
  split; [|split].
  - intro H. unfold is_public_subnet, is_private_subnet. rewrite H. now split.
  - intro v. unfold re_public, js_string_of. now rewrite toLower_toUpper, toLower_toLower.
  - intro v. unfold re_private_isolated, js_string_of.
    now rewrite toLower_toUpper, toLower_toLower.
Qed.

(** The collector's marker test ignores letter case, and testing a
    resource's Name tag first adds nothing to the tag test: a resource is
    matched by itself exactly when one of its tag keys or values contains
    "oculus". *)
Theorem oculus_marker_props :
  (forall s, Collector.includes_oculus (js_toUpperCase s) = Collector.includes_oculus s /\
             Collector.includes_oculus (js_toLowerCase s) = Collector.includes_oculus s) /\
  (forall tags, Collector.selfMatches tags = Collector.hasOculusTag (Collector.or_empty tags)).
Proof.
  split.
  - intro s. unfold Collector.includes_oculus. now rewrite toLower_toUpper, toLower_toLower.
  - intro tags. unfold Collector.selfMatches, Collector.hasOculusName.
    destruct (Collector.includes_oculus (Collector.nameTag tags)) eqn:E; [|reflexivity].
    symmetry. destruct tags as [ts|]; cbn in E |- *; [|discriminate].
    destruct (find key_is_name ts) as [t|] eqn:F; [|discriminate].
    destruct (Value t) as [v|] eqn:V; [|discriminate].
    apply existsb_exists. exists t. split; [now apply find_some in F as [F _]|].
    rewrite V. apply orb_true_iff. right. exact E.
Qed.

(** A bucket whose name contains "oculus" in any letter case is kept
    whatever its tag lookup does; when the tag lookup is rejected, a
    bucket is kept by its name alone. *)
Theorem keepBucket_props (c : Collector.Cloud) :
  (forall n, Collector.includes_oculus n = true ->
     Collector.keepBucket c (Collector.mkBucket (Some n)) = true) /\
  (forall b msg, Collector.getBucketTagging c (Collector.BucketName b) = Collector.ApiErr msg ->
     Collector.keepBucket c b =
       match Collector.BucketName b with Some n => Collector.includes_oculus n | None => false end).
Proof.
  split.
  - intros n H. unfold Collector.keepBucket. cbn. now rewrite H.
  - intros b msg H. unfold Collector.keepBucket. rewrite H. apply orb_false_r.
Qed.

(** ** The survey handler *)

(** The handler answers 200, 404 or 500 and never 400; when the database
    cannot be reached it answers 500 to every request, known route or not;
    on the submit route it answers 200 exactly when [submitSurveyAnswer]
    returns, and 500 when it throws. *)
Theorem handler_status (db_ok : bool) (now : string) (q : Api.json) (ev : Api.APIGatewayEvent) :
  (Api.statusCode (Api.handler db_ok now q ev) = 200%Z \/
   Api.statusCode (Api.handler db_ok now q ev) = 404%Z \/
   Api.statusCode (Api.handler db_ok now q ev) = 500%Z) /\
  (db_ok = false -> Api.statusCode (Api.handler db_ok now q ev) = 500%Z) /\
  (forall p b, js_includes p "/survey/submit" = true ->
     Api.statusCode (Api.handler true now q (Api.mkEvent "POST" p b)) =
       if accepted (Api.submitSurveyAnswer b now) then 200%Z else 500%Z).
Proof.
  split; [|split].
  - unfold Api.handler, Api.error_response.
    destruct db_ok; cbn; [|tauto].
    destruct (String.eqb (Api.httpMethod ev) "GET" && js_includes (Api.path ev) "/survey/nist-csf");
      cbn; [tauto|].
    destruct (String.eqb (Api.httpMethod ev) "POST" && js_includes (Api.path ev) "/survey/submit");
      cbn; [|tauto].
    destruct (Api.submitSurveyAnswer (Api.ev_body ev) now); cbn; tauto.
  - intros ->. reflexivity.
  - intros p b H. unfold Api.handler. cbn. rewrite H. cbn.
    now destruct (Api.submitSurveyAnswer b now).
Qed.

(** For a non-empty body that parses, [submitSurveyAnswer] returns exactly
    when [question_id] is truthy and [selected_answers] is an array (any
    array, empty included); what it returns echoes both fields as they
    were sent and stamps the submission time. *)
Theorem submitSurveyAnswer_props (raw : string) (j : Api.json) (now : string) :
  accepted (Api.submitSurveyAnswer (Some (Api.BodyText raw (Some j))) now) =
    negb (String.eqb raw "") &&
    match Api.get_prop j "question_id", Api.get_prop j "selected_answers" with
    | Some q, Some sa => Api.truthy q && Api.isArray sa
    | _, _ => false
    end /\
  (forall r, Api.submitSurveyAnswer (Some (Api.BodyText raw (Some j))) now = inr r ->
     Api.get_prop r "question_id" = Api.get_prop j "question_id" /\
     Api.get_prop r "selected_answers" = Api.get_prop j "selected_answers" /\
     Api.get_prop r "submitted_at" = Some (Some (Api.JStr now))).
Proof.
  unfold Api.submitSurveyAnswer.
  destruct raw as [|c raw]; [split; [reflexivity | intros ? ?; discriminate]|].
  cbn [negb String.eqb andb].
  destruct (Api.get_prop j "question_id") as [q|] eqn:Q;
    [|split; [reflexivity | intros ? ?; discriminate]].
  destruct (Api.get_prop j "selected_answers") as [sa|] eqn:SA;
    [|split; [now destruct (Api.truthy q) | intros ? ?; discriminate]].
  destruct (Api.truthy q) eqn:T; cbn [negb orb andb];
    [|split; [reflexivity | intros ? ?; discriminate]].
  destruct (Api.truthy sa) eqn:T2; cbn [negb orb andb];
    [|split; [now destruct sa as [[]|] | intros ? ?; discriminate]].
  destruct (Api.isArray sa) eqn:A; cbn [negb orb andb accepted];
    [|split; [reflexivity | intros ? ?; discriminate]].
  split; [reflexivity|]. intros r Hr. injection Hr as <-.
  destruct q as [q|]; [|discriminate]. destruct sa as [sa|]; [|discriminate].
  cbn. now repeat split.
Qed.

(** ** deploy-lambda.ts *)

Import LambdaDeploy.





(** ** The question route *)

(** The question route answers 500 with the error's message when reading
    the secret or connecting fails, when either query rejects, or when
    closing the connection fails.  Otherwise it answers 200: with the body
    [{ error: 'No questions found' }] when the question table is empty,
    and otherwise with the first question row and the answer rows fetched
    for its [question_id]. *)
Theorem survey_question_route connect questionQuery answersQuery dbEnd :
  (forall msg, connect = Collector.ApiErr msg ->
     ApiQuery.questionRoute connect questionQuery answersQuery dbEnd = ApiQuery.internal_error msg) /\
  (connect = Collector.ApiOk tt ->
   forall msg, questionQuery = Collector.ApiErr msg ->
     ApiQuery.questionRoute connect questionQuery answersQuery dbEnd = ApiQuery.internal_error msg) /\
  (connect = Collector.ApiOk tt -> questionQuery = Collector.ApiOk [] ->
     ApiQuery.questionRoute connect questionQuery answersQuery dbEnd =
       match dbEnd with
       | Collector.ApiErr msg => ApiQuery.internal_error msg
       | Collector.ApiOk _ => Api.mkResponse 200 (Api.JObj [("error", Api.JStr "No questions found")])
       end) /\
  (forall q rest, connect = Collector.ApiOk tt -> questionQuery = Collector.ApiOk (q :: rest) ->
     let question_id :=
       match Api.get_prop (Api.JObj q) "question_id" with Some v => v | None => None end in
     ApiQuery.questionRoute connect questionQuery answersQuery dbEnd =
       match answersQuery question_id, dbEnd with
       | Collector.ApiErr msg, _ => ApiQuery.internal_error msg
       | Collector.ApiOk _, Collector.ApiErr msg => ApiQuery.internal_error msg
       | Collector.ApiOk rows, Collector.ApiOk _ =>
           Api.mkResponse 200 (Api.JObj [("question", Api.JObj q);
                                         ("answers", Api.JArr (map Api.JObj rows))])
       end) /\
  (Api.statusCode (ApiQuery.questionRoute connect questionQuery answersQuery dbEnd) = 200%Z \/
   Api.statusCode (ApiQuery.questionRoute connect questionQuery answersQuery dbEnd) = 500%Z).
Proof.
  unfold ApiQuery.questionRoute, ApiQuery.getSurveyQuestion.
  split; [intros msg ->; reflexivity|].
  split; [intros -> msg ->; reflexivity|].
  split; [intros -> ->; reflexivity|].
  split; [intros q rest -> ->; cbn; destruct (answersQuery _), dbEnd; reflexivity|].
  destruct connect; [|right; reflexivity].
  destruct questionQuery as [[|q rest]|]; [| |right; reflexivity].
  - destruct dbEnd; [left|right]; reflexivity.
  - destruct (answersQuery _); [|right; reflexivity]. destruct dbEnd; [left|right]; reflexivity.
Qed.

Lemma survey_question_route_witness :
  ApiQuery.questionRoute (Collector.ApiOk tt) (Collector.ApiErr "Connection terminated")
    (fun _ => Collector.ApiOk []) (Collector.ApiOk tt)
  = ApiQuery.internal_error "Connection terminated".
Proof.
  destruct (survey_question_route (Collector.ApiOk tt) (Collector.ApiErr "Connection terminated")
    (fun _ => Collector.ApiOk []) (Collector.ApiOk tt)) as (_ & E & _).
  exact (E eq_refl "Connection terminated" eq_refl).
Defined.

(** ** The inventory's public IP *)

Lemma beforeDeploy_write env ip :
  In (EvWriteInventoryIP ip) (snd (beforeDeploy env [])) ->
  de_package_json env && de_check_script env && de_check_ok env = true /\
  de_inventory env <> None /\ de_inventory_file env = true /\
  getCurrentPublicIP (de_ip env) = IpResolved ip.
Proof.
  unfold beforeDeploy, analyzeAndConfirm, updateInventoryWithPublicIP,
    confirmationGate, ensureFile, sh, bind.
  destruct (getCurrentPublicIP (de_ip env)) as [ip0|err|] eqn:G;
  case_bash; cbn; intro H;
    repeat match goal with
    | H : _ \/ _ |- _ => destruct H
    | H : False |- _ => destruct H
    | H : EvWriteInventoryIP _ = EvWriteInventoryIP _ |- _ => injection H as <-
    | H : _ = _ |- _ => discriminate H
    end; repeat split; try discriminate; assumption.
Qed.

Lemma deployAfterGate_no_write env ip : ~ In (EvWriteInventoryIP ip) (snd (deployAfterGate env [])).
Proof.
  unfold deployAfterGate, vpcStrategyStep, ctx, installDeps, synthesize, sh, try_catch, bind.
  case_bash; cbn; intro H;
    repeat match goal with
    | H : _ \/ _ |- _ => destruct H
    | H : False |- _ => destruct H
    | H : _ = _ |- _ => discriminate H
    end.
Qed.

(** The deploy run writes the public IP into [aws-inventory.json] only
    after the preliminary checks passed and the inventory loaded, only when
    the file exists, and only the address the lookup resolved to: every
    write of a run records that same address. *)
Theorem inventory_ip_write (env : DeployEnv) (ip : string)
    (H : In (EvWriteInventoryIP ip) (snd (run (deploy_main env)))) :
  de_package_json env && de_check_script env && de_check_ok env = true /\
  de_inventory env <> None /\ de_inventory_file env = true /\
  getCurrentPublicIP (de_ip env) = IpResolved ip /\
  forall ip', In (EvWriteInventoryIP ip') (snd (run (deploy_main env))) -> ip' = ip.
Proof.
  assert (Hw : forall ip', In (EvWriteInventoryIP ip') (snd (run (deploy_main env))) ->
      In (EvWriteInventoryIP ip') (snd (beforeDeploy env []))).
  { intros ip' H'. rewrite deploy_main_split in H'.
    destruct (beforeDeploy env []) as [o x]; destruct o; cbn in H' |- *; try exact H'.
    apply in_app_or in H' as [H'|H']; [exact H'|].
    now apply deployAfterGate_no_write in H'. }
  destruct (beforeDeploy_write env ip (Hw ip H)) as (A & B & C & D).
  repeat split; try assumption.
  intros ip' H'. destruct (beforeDeploy_write env ip' (Hw ip' H')) as (_ & _ & _ & D').
  rewrite D in D'. now injection D'.
Qed.

Lemma inventory_ip_write_witness :
  In (EvWriteInventoryIP "203.0.113.7")
     (snd (run (deploy_main (sample_env inv_complete "" "NEW")))) /\
  getCurrentPublicIP (de_ip (sample_env inv_complete "" "NEW")) = IpResolved "203.0.113.7".
Proof.
  assert (H : In (EvWriteInventoryIP "203.0.113.7")
     (snd (run (deploy_main (sample_env inv_complete "" "NEW"))))) by (vm_compute; pick_line).
  split; [exact H|].
  destruct (inventory_ip_write _ _ H) as (_ & _ & _ & E & _). exact E.
Defined.

(** ** The collector's log *)

Lemma listing_api_log {A B} (k : Collector.kind) (call : Collector.api (option (list A)))
    (body : list A -> list B) :
  snd (Collector.listing k call body) = [api_log k call].
Proof. now destruct call. Qed.

Lemma log_kind_api_log {A} (k : Collector.kind) (r : Collector.api A) : log_kind (api_log k r) = k.
Proof. now destruct r. Qed.

Lemma collectInventory_logs (c : Collector.Cloud) :
  snd (Collector.collectInventory c) =
  map (listing_log c)
    [Collector.KVpcs; Collector.KSubnets; Collector.KRouteTables; Collector.KNetworkAcls;
     Collector.KNatGateways; Collector.KEc2Instances; Collector.KRdsInstances;
     Collector.KS3Buckets].
Proof.
  unfold Collector.collectInventory.
  destruct (Collector.getVPCs c) as [x1 l1] eqn:E1,
    (Collector.getSubnets c) as [x2 l2] eqn:E2,
    (Collector.getRouteTables c) as [x3 l3] eqn:E3,
    (Collector.getNetworkAcls c) as [x4 l4] eqn:E4,
    (Collector.getNatGateways c) as [x5 l5] eqn:E5,
    (Collector.getEC2Instances c) as [x6 l6] eqn:E6,
    (Collector.getRDSInstances c) as [x7 l7] eqn:E7,
    (Collector.getS3Buckets c) as [x8 l8] eqn:E8.
  unfold Collector.getVPCs, Collector.getSubnets, Collector.getRouteTables,
    Collector.getNetworkAcls, Collector.getNatGateways, Collector.getEC2Instances,
    Collector.getRDSInstances, Collector.getS3Buckets in *.
  repeat match goal with
  | E : Collector.listing _ _ _ = (_, ?l) |- _ =>
      apply (f_equal snd) in E; rewrite listing_api_log in E; cbn [snd] in E; subst l
  end.
  reflexivity.
Qed.

(** A collection writes exactly one log line per resource kind, whatever
    the other listings do: the success line when that kind's listing call
    resolves, and its error message when it rejects. *)
Theorem collector_one_log_per_kind (c : Collector.Cloud) (k : Collector.kind) :
  filter (fun l => kind_eqb (log_kind l) k) (snd (Collector.collectInventory c)) =
  [listing_log c k].
Proof.
  rewrite collectInventory_logs. cbn [map filter listing_log].
  rewrite !log_kind_api_log.
  destruct k; reflexivity.
Qed.

(** ** deploy-app.ts *)

Ltac da_cleanup :=
  repeat match goal with
  | H : _ \/ _ |- _ => destruct H
  | H : False |- _ => destruct H
  | H : _ /\ _ |- _ => destruct H
  | H : exists _, _ |- _ => destruct H
  | H : DeployApp.DaS3Sync _ _ = DeployApp.DaS3Sync _ _ |- _ => injection H as <- <-
  | H : DeployApp.DaInvalidate _ = DeployApp.DaInvalidate _ |- _ => injection H as <-
  | H : _ = _ |- _ => discriminate H
  end.

Ltac da_stop := cbn; repeat split; intros; da_cleanup; try lia.

(** The frontend is synced (with [--delete]) at most once, only after the
    install and the build succeeded and the build output exists, and always
    to the first bucket listed in the inventory; the CloudFront cache is
    invalidated only after a successful sync, for the first distribution
    listed; the run exits with 0 exactly when the sync ran and succeeded
    and any invalidation it started succeeded, so a failed invalidation
    fails the run after the files were already replaced. *)
Theorem deploy_app_run (env : DeployApp.AppDeployEnv) :
  length (filter DeployApp.is_sync (snd (DeployApp.deployAppMain env))) <= 1 /\
  length (filter DeployApp.is_invalidate (snd (DeployApp.deployAppMain env))) <= 1 /\
  (forall o b, In (DeployApp.DaS3Sync o b) (snd (DeployApp.deployAppMain env)) ->
     o = DeployApp.appOutDir /\
     DeployApp.da_install_ok env && DeployApp.da_build_ok env && DeployApp.da_out_dir env = true /\
     (exists inv bk, DeployApp.da_inventory env = Some inv /\
       EnvContent.first (EnvContent.app_s3Buckets inv) = Some bk /\ b = EnvContent.b_Name bk)) /\
  (forall id, In (DeployApp.DaInvalidate id) (snd (DeployApp.deployAppMain env)) ->
     (exists o b, In (DeployApp.DaS3Sync o b) (snd (DeployApp.deployAppMain env))) /\
     DeployApp.da_sync_ok env = true /\
     (exists inv cf, DeployApp.da_inventory env = Some inv /\
       EnvContent.first (EnvContent.cloudFrontDistributions inv) = Some cf /\
       id = EnvContent.cf_Id cf)) /\
  (exit_code (fst (DeployApp.deployAppMain env)) = Some 0 <->
     (exists o b, In (DeployApp.DaS3Sync o b) (snd (DeployApp.deployAppMain env))) /\
     DeployApp.da_sync_ok env = true /\
     (forall id, In (DeployApp.DaInvalidate id) (snd (DeployApp.deployAppMain env)) ->
       DeployApp.da_invalidate_ok env = true)).
Proof.
  unfold DeployApp.deployAppMain.
  destruct (DeployApp.da_package_json env); cbn [negb]; [|solve [da_stop]].
  destruct (DeployApp.da_app_dir env); cbn [negb]; [|solve [da_stop]].
  destruct (DeployApp.da_app_package_json env); cbn [negb]; [|solve [da_stop]].
  destruct (DeployApp.da_inventory_file env); cbn [negb]; [|solve [da_stop]].
  destruct (DeployApp.da_inventory env) as [inv|] eqn:I; [|solve [da_stop]].
  destruct (DeployApp.da_install_ok env); cbn [negb]; [|solve [da_stop]].
  destruct (DeployApp.da_build_ok env); cbn [negb]; [|solve [da_stop]].
  destruct (EnvContent.first (EnvContent.app_s3Buckets inv)) as [bk|] eqn:SB;
    [|solve [da_stop]].
  destruct (DeployApp.da_out_dir env); cbn [negb]; [|solve [da_stop]].
  destruct (EnvContent.first (EnvContent.cloudFrontDistributions inv)) as [cf|] eqn:CF;
  destruct (DeployApp.da_sync_ok env), (DeployApp.da_invalidate_ok env);
    da_stop;
    try reflexivity;
    try lia;
    try (exists inv, bk; now repeat split);
    try (exists inv, cf; now repeat split);
    try (do 2 eexists; pick_line);
    try match goal with
        | H : forall id, _ -> false = true |- _ =>
            exfalso; eapply Bool.diff_false_true, H; pick_line
        end.
Qed.
